(** * h5py/ipy_completer.py: the IPython tab-completion hook of h5py

    A shallow embedding of [src/h5py/ipy_completer.py].

    - Python 2 byte strings ([str]) are Rocq [string]s.
    - The module [re] is embedded as a small backtracking matcher
      ([Module Re]); the three module-level patterns are values of its
      syntax.
    - The functions of the file thread two effects, exceptions and
      mutation of module-level state; they live in a state-and-error
      monad [M] over a record [World].
    - Host objects (what [eval] returns, the shell, [generics]) are opaque
      to the file; they are records of the capabilities the file uses. *)

From Stdlib Require Import String Ascii List Bool Arith ZArith Lia.
Import ListNotations.
Local Open Scope list_scope.
Local Open Scope string_scope.
Local Open Scope nat_scope.

(** ** Python strings *)

Module PyStr.

Definition chr (n : nat) : ascii := ascii_of_nat n.
Definition TAB : ascii := chr 9.
Definition LF : ascii := chr 10.
Definition VT : ascii := chr 11.
Definition FF : ascii := chr 12.
Definition CR : ascii := chr 13.
Definition DQUOTE : ascii := chr 34.
Definition str1 (c : ascii) : string := String c EmptyString.

(** [c in s] for a one-character [c]. *)
Fixpoint contains (c : ascii) (s : string) : bool :=
  match s with
  | EmptyString => false
  | String x t => Ascii.eqb x c || contains c t
  end.

(** [s[:n]]: the slice stops at the end of a shorter string. *)
Fixpoint take (n : nat) (s : string) : string :=
  match n, s with
  | S k, String x t => String x (take k t)
  | _, _ => EmptyString
  end.

(** [s.startswith(p)]. *)
Definition startswith (p s : string) : bool := String.prefix p s.

(** The test [i[:len(item)] == item] of both completers. *)
Definition slice_eq (item i : string) : bool :=
  String.eqb (take (String.length item) i) item.

Fixpoint rev_onto (s acc : string) : string :=
  match s with
  | EmptyString => acc
  | String x t => rev_onto t (String x acc)
  end.
Definition rev (s : string) : string := rev_onto s EmptyString.

(** Whitespace of [str.strip()] with no argument. *)
Definition isspace (c : ascii) : bool :=
  Ascii.eqb c " " || Ascii.eqb c TAB || Ascii.eqb c LF
  || Ascii.eqb c VT || Ascii.eqb c FF || Ascii.eqb c CR.

Fixpoint lstrip_by (f : ascii -> bool) (s : string) : string :=
  match s with
  | EmptyString => EmptyString
  | String x t => if f x then lstrip_by f t else s
  end.
Definition rstrip_by (f : ascii -> bool) (s : string) : string :=
  rev (lstrip_by f (rev s)).

(** [s.strip()]. *)
Definition strip (s : string) : string :=
  rstrip_by isspace (lstrip_by isspace s).

(** [s.rfind(c) + 1]: the length of the shortest prefix of [s] that holds
    every occurrence of [c]; 0 when there is none. *)
Fixpoint rfind_succ (c : ascii) (s : string) : nat :=
  match s with
  | EmptyString => 0
  | String x t =>
      match rfind_succ c t with
      | 0 => if Ascii.eqb x c then 1 else 0
      | S k => S (S k)
      end
  end.

(** [s[n:]]. *)
Fixpoint drop (n : nat) (s : string) : string :=
  match n, s with
  | S k, String _ t => drop k t
  | _, _ => s
  end.

(** [c * n]. *)
Fixpoint repeat_chr (c : ascii) (n : nat) : string :=
  match n with
  | 0 => EmptyString
  | S k => String c (repeat_chr c k)
  end.

(** [s.endswith(c)]. *)
Fixpoint endswith_chr (c : ascii) (s : string) : bool :=
  match s with
  | EmptyString => false
  | String x EmptyString => Ascii.eqb x c
  | String _ t => endswith_chr c t
  end.

(** The text after the last [c] of [s] ([s.rsplit(c, 1)[-1]]). *)
Definition after_last (c : ascii) (s : string) : string :=
  drop (rfind_succ c s) s.

(** Every character of [s] satisfies [f]. *)
Fixpoint all_chars (f : ascii -> bool) (s : string) : bool :=
  match s with
  | EmptyString => true
  | String x t => f x && all_chars f t
  end.

End PyStr.

(** ** posixpath *)

Module posixpath.
Import PyStr.

(** [posixpath.split(p)]:
<<
    i = p.rfind('/') + 1
    head, tail = p[:i], p[i:]
    if head and head != '/'*len(head):
        head = head.rstrip('/')
    return head, tail
>> *)
Definition split (p : string) : string * string :=
  let i := rfind_succ "/" p in
  let head := take i p in
  let tail := drop i p in
  let head :=
    if negb (String.eqb head "")
       && negb (String.eqb head (repeat_chr "/" (String.length head)))
    then rstrip_by (Ascii.eqb "/"%char) head
    else head in
  (head, tail).

(** [posixpath.join(a, b)]:
<<
    if b.startswith('/'):                    path = b
    elif path == '' or path.endswith('/'):   path += b
    else:                                    path += '/' + b
>> *)
Definition join (a b : string) : string :=
  if startswith "/" b then b
  else if String.eqb a "" || endswith_chr "/" a then a ++ b
  else a ++ "/" ++ b.

End posixpath.

(** ** The module [re]

    A backtracking matcher in continuation-passing style for the part of the
    pattern language the file uses: literals, [.], character sets, [\w],
    concatenation, greedy [?], [*] and [+], lazy [+?], capturing groups,
    back-references, negative look-ahead and [$].  Alternatives are tried in
    the order Python tries them, so the first success is Python's match. *)

Module Re.
Import PyStr.

Inductive regex : Type :=
| Lit (c : ascii)              (* a literal character, also an escaped one *)
| Dot                          (* .    any character but a newline *)
| OneOf (cs : list ascii)      (* [...] *)
| WordChar                     (* \w   [a-zA-Z0-9_] on byte strings *)
| Cat (r1 r2 : regex)
| Opt (r : regex)              (* r?   greedy *)
| Star (r : regex)             (* r*   greedy *)
| Plus (r : regex)             (* r+   greedy *)
| PlusLazy (r : regex)         (* r+?  *)
| Group (n : nat) (r : regex)  (* the n-th capturing group; (?:r) is r itself *)
| Backref (n : nat)            (* (?P=name) of the n-th group *)
| NotAhead (r : regex)         (* (?!r) *)
| EndAnchor.                   (* $    the end, or just before a final newline *)

Infix "@@" := Cat (at level 60, right associativity).

(** A matcher state: the offset reached, the text still ahead and the
    groups captured so far (latest first). *)
Record mstate : Type := mkState {
  offset : nat;
  ahead : string;
  caps : list (nat * string) }.

Definition cont : Type := mstate -> option mstate.

Definition isword (c : ascii) : bool :=
  let n := nat_of_ascii c in
  ((48 <=? n) && (n <=? 57)) || ((65 <=? n) && (n <=? 90))
  || ((97 <=? n) && (n <=? 122)) || (n =? 95).

Definition one (p : ascii -> bool) (st : mstate) (k : cont) : option mstate :=
  match ahead st with
  | String c t => if p c then k (mkState (S (offset st)) t (caps st)) else None
  | EmptyString => None
  end.

Fixpoint lookup_cap (n : nat) (cs : list (nat * string)) : option string :=
  match cs with
  | [] => None
  | (m, t) :: r => if m =? n then Some t else lookup_cap n r
  end.

(** An iteration of a repeated body counts only when it consumed text. *)
Definition progressed (st st' : mstate) : bool :=
  String.length (ahead st') <? String.length (ahead st).

Fixpoint greedy (body : mstate -> cont -> option mstate) (fuel : nat)
  (st : mstate) (k : cont) : option mstate :=
  match fuel with
  | 0 => k st
  | S f =>
      match body st (fun st' =>
              if progressed st st' then greedy body f st' k else None) with
      | Some r => Some r
      | None => k st
      end
  end.

Fixpoint lazy (body : mstate -> cont -> option mstate) (fuel : nat)
  (st : mstate) (k : cont) : option mstate :=
  match k st with
  | Some r => Some r
  | None =>
      match fuel with
      | 0 => None
      | S f => body st (fun st' =>
                 if progressed st st' then lazy body f st' k else None)
      end
  end.

Fixpoint mtch (r : regex) (st : mstate) (k : cont) {struct r} : option mstate :=
  match r with
  | Lit c => one (Ascii.eqb c) st k
  | Dot => one (fun x => negb (Ascii.eqb x LF)) st k
  | OneOf cs => one (fun x => existsb (Ascii.eqb x) cs) st k
  | WordChar => one isword st k
  | Cat r1 r2 => mtch r1 st (fun st' => mtch r2 st' k)
  | Opt r1 =>
      match mtch r1 st k with
      | Some x => Some x
      | None => k st
      end
  | Star r1 => greedy (mtch r1) (String.length (ahead st)) st k
  | Plus r1 =>
      mtch r1 st (fun st' => greedy (mtch r1) (String.length (ahead st')) st' k)
  | PlusLazy r1 =>
      mtch r1 st (fun st' => lazy (mtch r1) (String.length (ahead st')) st' k)
  | Group n r1 =>
      mtch r1 st (fun st' =>
        k (mkState (offset st') (ahead st')
             ((n, take (offset st' - offset st) (ahead st)) :: caps st')))
  | Backref n =>
      match lookup_cap n (caps st) with
      | Some t =>
          if String.prefix t (ahead st)
          then k (mkState (offset st + String.length t)
                    (drop (String.length t) (ahead st)) (caps st))
          else None
      | None => None
      end
  | NotAhead r1 =>
      match mtch r1 st Some with
      | Some _ => None
      | None => k st
      end
  | EndAnchor =>
      if String.eqb (ahead st) "" || String.eqb (ahead st) (str1 LF)
      then k st else None
  end.

(** [pattern.search]: the match at the leftmost offset that has one.  [s] is
    the text from offset [off] on. *)
Fixpoint search (r : regex) (off : nat) (s : string) : option (nat * mstate) :=
  match mtch r (mkState off s []) Some with
  | Some st => Some (off, st)
  | None =>
      match s with
      | EmptyString => None
      | String _ t => search r (S off) t
      end
  end.

Fixpoint ngroups (r : regex) : nat :=
  match r with
  | Cat r1 r2 => Nat.max (ngroups r1) (ngroups r2)
  | Opt r1 | Star r1 | Plus r1 | PlusLazy r1 | NotAhead r1 => ngroups r1
  | Group n r1 => Nat.max n (ngroups r1)
  | _ => 0
  end.

(** The groups of a match, in order.  Python puts [None] for a group that
    took no part in the match; every group of the patterns of this file
    lies on the path every match takes, and the model puts the empty
    string there. *)
Definition groups (n : nat) (st : mstate) : list string :=
  map (fun i => match lookup_cap i (caps st) with
                | Some t => t
                | None => ""
                end) (seq 1 n).

(** [pattern.split(string)] of Python 2: the text between the matches,
    with the groups of each match after the text before it; an empty match
    does not split. [last] is where the previous match ended and [start]
    where the next search begins. *)
Fixpoint split_loop (r : regex) (fuel last start : nat) (whole : string)
  : list string :=
  match fuel with
  | 0 => [drop last whole]
  | S f =>
      if String.length whole <? start then [drop last whole]
      else
        match search r start (drop start whole) with
        | None => [drop last whole]
        | Some (b, st) =>
            let e := offset st in
            if e =? b then
              if last =? String.length whole then [drop last whole]
              else split_loop r f last (S b) whole
            else
              take (b - last) (drop last whole)
                :: (groups (ngroups r) st ++ split_loop r f e e whole)%list
        end
  end.

Definition split (r : regex) (s : string) : list string :=
  split_loop r (String.length s + 2) 0 0 s.

End Re.

(** ** Python lists *)

Module PyList.

(** [l[start:stop:step]] for non-negative bounds and a positive step. *)
Definition slice {A} (start stop step : nat) (l : list A) : list A :=
  flat_map (fun i => match nth_error l i with
                     | Some x => [x]
                     | None => []
                     end)
    (filter (fun i => (i - start) mod step =? 0)
       (seq start (Nat.min stop (length l) - start))).

End PyList.

Set Warnings "-register-all".

(** ** Exceptions, module state and the monad of the file *)

(** The exception classes the file raises, catches or meets.  Every one is
    a subclass of [Exception]; [OtherError] stands for any further such
    class that is none of the named ones nor a subclass of them.
    Asynchronous signals ([KeyboardInterrupt], [SystemExit]) are outside
    the model. *)
Inductive exn : Type :=
| AttributeError
| IndexError
| KeyError
| NameError
| SyntaxError
| TypeError
| ValueError
| TryNext
| OtherError (cls : string).

Inductive result (A : Type) : Type :=
| Ok (a : A)
| Raise (e : exn).
Arguments Ok {A} a.
Arguments Raise {A} e.

Definition rbind {A B} (r : result A) (f : A -> result B) : result B :=
  match r with
  | Ok a => f a
  | Raise e => Raise e
  end.

(** A shell object is known by its identity. *)
Definition ShellRef : Type := nat.

(** The callables a completion hook can be; this module defines one. *)
Inductive callback : Type :=
| cb_h5py_completer
| cb_other (name : string).

(** One call of [ip.set_hook(name, fn, re_key=...)] as the shell keeps it. *)
Record HookEntry : Type := mkHook {
  hook_shell : ShellRef;
  hook_name : string;
  hook_fn : callback;
  hook_re_key : string }.

(** What the functions of the file can change or consult besides their
    arguments.
    - [readline]: the module global of that name, [None] after a failed
      import (lines 44-47), otherwise the module, of which the completer
      delimiters are what the file sets;
    - [evaluated]: the expressions handed to [eval], oldest first;
    - [hooks]: the hooks set on shells, oldest first;
    - [warnings]: what [warn] was called with, oldest first. *)
Record World : Type := mkWorld {
  readline : option string;
  evaluated : list string;
  hooks : list HookEntry;
  warnings : list string }.

Definition M (A : Type) : Type := World -> result A * World.

Definition ret {A} (a : A) : M A := fun w => (Ok a, w).
Definition raise {A} (e : exn) : M A := fun w => (Raise e, w).
Definition bind {A B} (c : M A) (f : A -> M B) : M B :=
  fun w => match c w with
           | (Ok a, w') => f a w'
           | (Raise e, w') => (Raise e, w')
           end.
Definition lift {A} (r : result A) : M A := fun w => (r, w).
(** The outcome of a [try] body, handed to the code that inspects it. *)
Definition catch {A} (c : M A) : M (result A) :=
  fun w => let (r, w') := c w in (Ok r, w').

Declare Scope py_scope.
Delimit Scope py_scope with py.
Notation "x <- c ;; k" := (bind c (fun x => k))
  (at level 61, c at next level, right associativity) : py_scope.
Notation "' pat <- c ;; k" := (bind c (fun x => match x with pat => k end))
  (at level 61, pat pattern, c at next level, right associativity) : py_scope.
Notation "c ;; k" := (bind c (fun _ => k))
  (at level 61, right associativity) : py_scope.
Local Open Scope py_scope.

(** The world once the completer delimiters of readline are [d]. *)
Definition with_delims (d : string) (w : World) : World :=
  mkWorld (Some d) (evaluated w) (hooks w) (warnings w).

(** [readline.set_completer_delims(d)]: an attribute of [None] does not
    exist. *)
Definition readline_set_completer_delims (d : string) : M unit :=
  fun w =>
    match readline w with
    | None => (Raise AttributeError, w)
    | Some _ => (Ok tt, with_delims d w)
    end.

(** [warn(msg)]. *)
Definition warn (msg : string) : M unit :=
  fun w => (Ok tt, mkWorld (readline w) (evaluated w) (hooks w)
                     (warnings w ++ [msg])%list).

(** [ip.set_hook(name, fn, re_key=re_key)]: the shell adds the callable to
    the dispatcher of that name under the key. *)
Definition set_hook (ip : ShellRef) (name : string) (fn : callback)
  (re_key : string) : M unit :=
  fun w => (Ok tt, mkWorld (readline w) (evaluated w)
                     (hooks w ++ [mkHook ip name fn re_key])%list (warnings w)).

(** ** Host objects *)

(** For [isinstance(obj, (AttributeManager, HLObject))]: [HLObject] stands
    for that class and its subclasses (File, Group, Dataset, ...). *)
Inductive pyclass : Type :=
| AttributeManager
| HLObject
| OtherClass (name : string).

(** A live object of the session, by what the file asks of it:
    [obj.keys()], [obj[key]] and [dir(obj)].  A missing method or a failing
    lookup is the exception it raises. *)
Inductive PyObj : Type := mkObj {
  obj_class : pyclass;
  obj_keys : result (list string);
  obj_getitem : string -> result PyObj;
  obj_dir : list string }.

Definition isinstance_h5 (o : option PyObj) : bool :=
  match o with
  | Some obj =>
      match obj_class obj with
      | AttributeManager | HLObject => true
      | OtherClass _ => false
      end
  | None => false
  end.

(** A namespace, by what [eval(name, ns)] yields in it. *)
Definition Namespace : Type := string -> result PyObj.

(** The first argument of the completers (the hook's [self]):
    - [shell_user_ns]: [context.shell.user_ns], [None] when the attribute
      lookup raises [AttributeError] (IPython 1.0 and later);
    - [user_ns]: [context.user_ns], likewise;
    - [_ofind]: [self._ofind(base).get('obj')], [None] for Python's [None]. *)
Record Context : Type := mkContext {
  shell_user_ns : option Namespace;
  user_ns : option Namespace;
  _ofind : string -> option PyObj }.

Record Event : Type := mkEvent { line : string }.

(** The shell [get_ipython()] returns.  Each setting is [None] when its
    attribute lookup raises [AttributeError], else the value found, which
    is Python's [None] or an integer. *)
Record IPython : Type := mkIPython {
  ip_ref : ShellRef;
  Completer_omit__names : option (option Z);
  readline_omit__names : option (option Z);
  options_readline_omit__names : option (option Z) }.

Definition getattr {A} (a : option A) : M A :=
  match a with
  | Some v => ret v
  | None => raise AttributeError
  end.

(** [eval(name, ns)] *)
Definition eval (name : string) (ns : Namespace) : M PyObj :=
  fun w => (ns name, mkWorld (readline w) (evaluated w ++ [name])%list
                       (hooks w) (warnings w)).

(** ** The module *)

Import PyStr Re.

(** Line 78, piece by piece: an optional greedy run of characters up to
    an equals sign (not captured); group 1, which is one or more characters,
    an opening bracket, any characters, a closing bracket and any
    characters; a dot; group 2, a run of word characters; the end. *)
Definition re_attr_match : regex :=
  Opt (Star Dot @@ Lit "=")
  @@ Group 1 (Plus Dot @@ Lit "[" @@ Star Dot @@ Lit "]" @@ Star Dot)
  @@ Lit "." @@ Group 2 (Star WordChar) @@ EndAnchor.

(** Line 79: the same optional prefix; group 1, any characters; an opening
    bracket; group 2 (named s), one of the single quote, the bar and the
    double quote; a negative look-ahead for any characters followed by
    what s captured; group 3, any characters; the end. *)
Definition re_item_match : regex :=
  Opt (Star Dot @@ Lit "=")
  @@ Group 1 (Star Dot) @@ Lit "["
  @@ Group 2 (OneOf ["'"; "|"; DQUOTE]%char)
  @@ NotAhead (Star Dot @@ Backref 2)
  @@ Group 3 (Star Dot) @@ EndAnchor.

(** Line 80: the same optional prefix; group 1, one or more characters,
    as few as possible; an opening bracket (not captured). *)
Definition re_object_match : regex :=
  Opt (Star Dot @@ Lit "=") @@ Group 1 (PlusLazy Dot) @@ Lit "[".

(** [a, b = l]: anything but two items is a [ValueError]. *)
Definition unpack2 {A} (l : list A) : result (A * A) :=
  match l with
  | [a; b] => Ok (a, b)
  | _ => Raise ValueError
  end.

(** [l[i]] *)
Definition index {A} (l : list A) (i : nat) : result A :=
  match nth_error l i with
  | Some x => Ok x
  | None => Raise IndexError
  end.

(** [re_item_match.split(command)[1:4:2]], unpacked. *)
Definition item_split (command : string) : result (string * string) :=
  unpack2 (PyList.slice 1 4 2 (Re.split re_item_match command)).

(** [re_attr_match.split(command)[1:3]], unpacked. *)
Definition attr_split (command : string) : result (string * string) :=
  unpack2 (PyList.slice 1 3 1 (Re.split re_attr_match command)).

(** [re_object_match.split(event.line)[1]] *)
Definition object_base (l : string) : result string :=
  index (Re.split re_object_match l) 1.

Definition _retrieve_obj (name : string) (context : Context) : M PyObj :=
  if contains "(" name then raise ValueError
  else
    r <- catch (ns <- getattr (shell_user_ns context) ;; eval name ns) ;;
    match r with
    | Ok obj => ret obj
    | Raise AttributeError =>
        ns <- getattr (user_ns context) ;; eval name ns
    | Raise e => raise e
    end.

(** The delimiters of line 123. *)
Definition item_delims : string :=
  " " ++ str1 TAB ++ str1 LF ++ "`!@#$^&*()=+[{]}\|;:'" ++ str1 DQUOTE
  ++ ",<>?".

(** The [try] body of lines 114-118. *)
Definition item_candidates (obj : PyObj) (path : string)
  : result (list string) :=
  if negb (String.eqb path "") then
    rbind (obj_getitem obj path) (fun sub =>
    rbind (obj_keys sub) (fun names =>
    Ok (map (fun name => posixpath.join path name) names)))
  else obj_keys obj.

Definition h5py_item_completer (context : Context) (command : string)
  : M (list string) :=
  ' (base, item) <- lift (item_split command) ;;
  r <- catch (_retrieve_obj base context) ;;
  match r with
  | Raise _ => ret []
  | Ok obj =>
      let (path, _) := posixpath.split item in
      match item_candidates obj path with
      | Raise AttributeError => ret []
      | Raise e => raise e
      | Ok items =>
          readline_set_completer_delims item_delims ;;
          ret (filter (fun i => slice_eq item i) items)
      end
  end.

Section Host.

(** [get_ipython()] and [generics.complete_object] belong to the host. *)
Variable get_ipython : IPython.
Variable complete_object : PyObj -> list string -> result (list string).

(** Lines 145-162. *)
Definition lookup_omit__names : option Z :=
  let omit__names : option Z := None in
  let omit__names :=
    match Completer_omit__names get_ipython with
    | Some v => v
    | None => omit__names
    end in
  let omit__names :=
    match omit__names with
    | None =>
        match readline_omit__names get_ipython with
        | Some v => v
        | None => omit__names
        end
    | Some _ => omit__names
    end in
  match omit__names with
  | None =>
      match options_readline_omit__names get_ipython with
      | Some v => v
      | None => Some 0%Z
      end
  | Some _ => omit__names
  end.

(** Lines 163-166. *)
Definition omit_filter (omit__names : option Z) (attrs : list string)
  : list string :=
  match omit__names with
  | Some 1%Z => filter (fun a => negb (startswith "__" a)) attrs
  | Some 2%Z => filter (fun a => negb (startswith "_" a)) attrs
  | _ => attrs
  end.

(** Lines 139-143. *)
Definition attr_listing (obj : PyObj) : result (list string) :=
  let attrs := obj_dir obj in
  match complete_object obj attrs with
  | Ok attrs' => Ok attrs'
  | Raise TryNext => Ok attrs
  | Raise e => Raise e
  end.

Definition h5py_attr_completer (context : Context) (command : string)
  : M (list string) :=
  ' (base, attr) <- lift (attr_split command) ;;
  let base := strip base in
  r <- catch (_retrieve_obj base context) ;;
  match r with
  | Raise _ => ret []
  | Ok obj =>
      attrs <- lift (attr_listing obj) ;;
      let attrs := omit_filter lookup_omit__names attrs in
      readline_set_completer_delims " =" ;;
      ret (map (fun a => base ++ "." ++ a)
             (filter (fun a => slice_eq attr a) attrs))
  end.

Definition h5py_completer (self : Context) (event : Event) : M (list string) :=
  base <- lift (object_base (line event)) ;;
  if negb (isinstance_h5 (_ofind self base)) then raise TryNext
  else
    r <- catch (h5py_attr_completer self (line event)) ;;
    match r with
    | Ok l => ret l
    | Raise ValueError =>
        r <- catch (h5py_item_completer self (line event)) ;;
        match r with
        | Ok l => ret l
        | Raise ValueError => ret []
        | Raise e => raise e
        end
    | Raise e => raise e
    end.

(** The key of line 198. *)
Definition re_key : string := "(?:.*\=)?(.+?)\[".

Definition load_ipython_extension (ip : option ShellRef) : M unit :=
  fun w =>
    match readline w with
    | Some _ =>
        let ip := match ip with
                  | None => ip_ref get_ipython
                  | Some r => r
                  end in
        set_hook ip "complete_command" cb_h5py_completer re_key w
    | None => warn "Readline is not available to enable completions." w
    end.







End Host.

(** ** A session to run the module in

    A file [f] with two groups and a dataset, as the module docstring has
    it; a dictionary [x] that is no h5py object. *)

Module Session.

Definition dset : PyObj :=
  mkObj HLObject (Raise AttributeError) (fun _ => Raise ValueError)
    ["attrs"; "dtype"; "shape"; "_id"; "__class__"].

Definition item1 : PyObj :=
  mkObj HLObject (Ok ["item2"; "other"])
    (fun k => if String.eqb k "item2" then Ok dset
              else if String.eqb k "other" then Ok dset
              else Raise KeyError)
    ["attrs"; "keys"; "name"; "_id"; "__class__"].

Definition f : PyObj :=
  mkObj HLObject (Ok ["item1"; "item3"; "data"])
    (fun k => if String.eqb k "item1" then Ok item1
              else if String.eqb k "item1/item2" then Ok dset
              else if String.eqb k "data" then Ok dset
              else Raise KeyError)
    ["attrs"; "filename"; "keys"; "_id"; "__class__"].

Definition x : PyObj :=
  mkObj (OtherClass "dict") (Ok ["a"]) (fun _ => Raise KeyError)
    ["keys"; "__class__"].

Definition ns : Namespace :=
  fun name =>
    if String.eqb name "f" then Ok f
    else if String.eqb name "f['item1']" then Ok item1
    else if String.eqb name "f['data']" then Ok dset
    else if String.eqb name "x" then Ok x
    else Raise NameError.

(** The hook's [self] of IPython before 1.0: the namespace is on
    [self.shell]. *)
Definition ctx : Context :=
  mkContext (Some ns) None
    (fun name => if String.eqb name "f" then Some f
                 else if String.eqb name "x" then Some x
                 else None).

(** The same session under IPython 1.0: the namespace is on [self]. *)
Definition ctx1 : Context := mkContext None (Some ns) (_ofind ctx).

Definition ip (omit : Z) : IPython := mkIPython 0 (Some (Some omit)) None None.

(** No handler registered with the generic: it raises [TryNext]. *)
Definition no_generic : PyObj -> list string -> result (list string) :=
  fun _ _ => Raise TryNext.

(** The module loaded with readline, and without. *)
Definition w0 : World := mkWorld (Some "") [] [] [].
Definition w_noreadline : World := mkWorld None [] [] [].

(** The world after one evaluation of [name] in [w0]. *)
Definition after_eval (name : string) : World :=
  mkWorld (Some "") [name] [] [].

End Session.


(** ** What the patterns match

    A relational reading of the pattern language, against which the matcher
    of [Module Re] is checked. *)

Module ReSpec.
Import PyStr Re.

(** One character that satisfies [p] is consumed. *)
Definition step (p : ascii -> bool) (st st' : mstate) : Prop :=
  exists c t, ahead st = String c t /\ p c = true
              /\ st' = mkState (S (offset st)) t (caps st).

(** Zero or more iterations, each of which consumes text. *)
Inductive star (R : mstate -> mstate -> Prop) : mstate -> mstate -> Prop :=
| star_nil st : star R st st
| star_cons st st1 st2 :
    R st st1 -> progressed st st1 = true -> star R st1 st2 -> star R st st2.

(** [matches r st st']: [r] can match from [st] and leave [st']. *)
Fixpoint matches (r : regex) (st st' : mstate) : Prop :=
  match r with
  | Lit c => step (Ascii.eqb c) st st'
  | Dot => step (fun x => negb (Ascii.eqb x LF)) st st'
  | OneOf cs => step (fun x => existsb (Ascii.eqb x) cs) st st'
  | WordChar => step isword st st'
  | Cat r1 r2 => exists st1, matches r1 st st1 /\ matches r2 st1 st'
  | Opt r1 => matches r1 st st' \/ st' = st
  | Star r1 => star (matches r1) st st'
  | Plus r1 | PlusLazy r1 =>
      exists st1, matches r1 st st1 /\ star (matches r1) st1 st'
  | Group n r1 =>
      exists st1, matches r1 st st1
        /\ st' = mkState (offset st1) (ahead st1)
                   ((n, take (offset st1 - offset st) (ahead st)) :: caps st1)
  | Backref n =>
      exists t, lookup_cap n (caps st) = Some t
        /\ String.prefix t (ahead st) = true
        /\ st' = mkState (offset st + String.length t)
                   (drop (String.length t) (ahead st)) (caps st)
  | NotAhead r1 => (forall st1, ~ matches r1 st st1) /\ st' = st
  | EndAnchor =>
      (ahead st = "" \/ ahead st = str1 LF) /\ st' = st
  end.

(** A matcher and a relation agree when every answer of the matcher comes
    from a related state, and every related state the continuation accepts
    makes the matcher answer. *)
Definition sound (m : mstate -> cont -> option mstate)
  (R : mstate -> mstate -> Prop) : Prop :=
  forall st k res, m st k = Some res -> exists st', R st st' /\ k st' = Some res.

Definition complete (m : mstate -> cont -> option mstate)
  (R : mstate -> mstate -> Prop) : Prop :=
  forall st k st', R st st' -> k st' <> None -> m st k <> None.

End ReSpec.

(** ** Vocabulary for statements about whole lines *)

Module Lines.
Import PyStr Re.

(** [s] holds none of the characters [cs]. *)
Definition lacks (cs : list ascii) (s : string) : bool :=
  forallb (fun c => negb (contains c s)) cs.

(** The three quote characters of the item pattern. *)
Definition quotes : list ascii := ["'"; "|"; DQUOTE]%char.

(** The world after [eval] was handed [name] once more. *)
Definition logged (name : string) (w : World) : World :=
  mkWorld (readline w) (evaluated w ++ [name])%list (hooks w) (warnings w).

(** The session evaluates [name] to [obj] at the first attempt of
    [_retrieve_obj]: in [context.shell.user_ns], or in [context.user_ns]
    where the context has no shell namespace. *)
Definition evaluates (context : Context) (name : string) (obj : PyObj)
  : Prop :=
  (exists ns, shell_user_ns context = Some ns /\ ns name = Ok obj)
  \/ (shell_user_ns context = None
      /\ exists ns, user_ns context = Some ns /\ ns name = Ok obj).

(** No newline in [s], as the test of [Dot] sees it. *)
Definition notLF (x : ascii) : bool := negb (Ascii.eqb x LF).

(** What may stand before the expression on the line: nothing, or text
    without a newline up to an equals sign. *)
Definition assignment (assign : string) : Prop :=
  assign = "" \/ exists lhs, assign = lhs ++ "=" /\ contains LF lhs = false.

(** The patterns behind their optional prefix. *)
Definition item_core : regex :=
  Group 1 (Star Dot) @@ Lit "["
  @@ Group 2 (OneOf ["'"; "|"; DQUOTE]%char)
  @@ NotAhead (Star Dot @@ Backref 2)
  @@ Group 3 (Star Dot) @@ EndAnchor.

Definition attr_core : regex :=
  Group 1 (Plus Dot @@ Lit "[" @@ Star Dot @@ Lit "]" @@ Star Dot)
  @@ Lit "." @@ Group 2 (Star WordChar) @@ EndAnchor.

Definition object_core : regex := Group 1 (PlusLazy Dot) @@ Lit "[".

(** What a completion may do to the world: no hook, no warning, readline
    neither loaded nor unloaded, and at most [k] more evaluations, none of
    an expression with a parenthesis. *)
Definition keeps_world (k : nat) (w w' : World) : Prop :=
  hooks w' = hooks w /\ warnings w' = warnings w
  /\ (readline w' = None <-> readline w = None)
  /\ exists l, evaluated w' = (evaluated w ++ l)%list /\ length l <= k
               /\ forall x, In x l -> contains "(" x = false.

End Lines.

(** ** The levels of [omit__names] *)

(** What lines 163-166 make of the setting: 1 and 2 filter, every other
    value filters nothing. *)
Definition omit_level (omit__names : option Z) : nat :=
  match omit__names with
  | Some 1%Z => 1
  | Some 2%Z => 2
  | _ => 0
  end.

(** The names still listed at a level. *)
Definition listed_at (level : nat) (a : string) : bool :=
  match level with
  | 0 => true
  | 1 => negb (PyStr.startswith "__" a)
  | _ => negb (PyStr.startswith "_" a)
  end.

(** * Properties *)

(** ** Strings and paths *)

Module PyStrFacts.
Import PyStr.

Lemma slice_eq_prefix (p s : string) : slice_eq p s = String.prefix p s.
Proof.
  unfold slice_eq. revert s.
  induction p as [|a p IH]; intros [|b s]; simpl; try reflexivity.
  destruct (ascii_dec a b) as [->|Hne].
  - rewrite Ascii.eqb_refl. apply IH.
  - destruct (Ascii.eqb_spec b a) as [->|_]; [contradiction|reflexivity].
Qed.

Lemma prefix_app (p s : string) :
  String.prefix p s = true <-> exists r, s = p ++ r.
Proof.
  revert s. induction p as [|a p IH]; intros s.
  - split; [intros _; now exists s | intros _; now destruct s].
  - destruct s as [|b s]; simpl.
    + split; [discriminate | intros [r Hr]; discriminate].
    + destruct (ascii_dec a b) as [->|Hne].
      * rewrite IH. split; intros [r Hr]; exists r; congruence.
      * split; [discriminate | intros [r Hr]; congruence].
Qed.

Lemma slice_eq_app (p s : string) :
  slice_eq p s = true <-> exists r, s = p ++ r.
Proof. rewrite slice_eq_prefix. apply prefix_app. Qed.

Lemma take_drop (n : nat) (s : string) : take n s ++ drop n s = s.
Proof.
  revert s. induction n as [|n IH]; intros [|x s]; simpl; try reflexivity.
  now rewrite IH.
Qed.

Lemma rfind_succ_0 (c : ascii) (s : string) :
  rfind_succ c s = 0 <-> contains c s = false.
Proof.
  induction s as [|x s IH]; simpl; [tauto|].
  destruct (rfind_succ c s) as [|k].
  - destruct (Ascii.eqb x c); simpl; [|tauto].
    split; discriminate.
  - destruct (contains c s).
    + rewrite orb_true_r. split; discriminate.
    + exfalso. destruct IH as [_ IH]. discriminate (IH eq_refl).
Qed.

Lemma contains_after_last (c : ascii) (s : string) :
  contains c (after_last c s) = false.
Proof.
  unfold after_last. induction s as [|x s IH]; simpl; [reflexivity|].
  destruct (rfind_succ c s) as [|k] eqn:E.
  - apply rfind_succ_0 in E.
    destruct (Ascii.eqb x c) eqn:Ex; simpl.
    + destruct s; simpl in *; assumption.
    + now rewrite Ex, E.
  - simpl in IH. exact IH.
Qed.

Lemma contains_app (c : ascii) (s t : string) :
  contains c (s ++ t) = contains c s || contains c t.
Proof.
  induction s as [|x s IH]; simpl; [reflexivity|].
  now rewrite IH, orb_assoc.
Qed.

Lemma rfind_succ_app_free (c : ascii) (s t : string) :
  contains c t = false ->
  rfind_succ c (s ++ String c t) = S (String.length s).
Proof.
  intros Ht. induction s as [|x s IH]; simpl.
  - apply rfind_succ_0 in Ht. rewrite Ht. now rewrite Ascii.eqb_refl.
  - now rewrite IH.
Qed.

(** The text after the last dot of [base.a] is [a] when [a] has no dot. *)
Lemma after_last_join (c : ascii) (b a : string) :
  contains c a = false -> after_last c (b ++ String c a) = a.
Proof.
  intros Ha. unfold after_last. rewrite (rfind_succ_app_free c b a Ha).
  clear Ha. induction b as [|x b IH]; simpl; [now destruct a|exact IH].
Qed.

Lemma contains_rev_onto (c : ascii) (s acc : string) :
  contains c (rev_onto s acc) = contains c s || contains c acc.
Proof.
  revert acc. induction s as [|x s IH]; intros acc; simpl; [reflexivity|].
  rewrite IH. simpl.
  destruct (Ascii.eqb x c), (contains c s), (contains c acc); reflexivity.
Qed.

Lemma contains_rev (c : ascii) (s : string) : contains c (rev s) = contains c s.
Proof. unfold rev. rewrite contains_rev_onto. simpl. apply orb_false_r. Qed.

Lemma contains_lstrip_by (f : ascii -> bool) (c : ascii) (s : string) :
  f c = false -> contains c (lstrip_by f s) = contains c s.
Proof.
  intros Hc. induction s as [|x s IH]; simpl; [reflexivity|].
  destruct (f x) eqn:Hx; [|reflexivity].
  rewrite IH. destruct (Ascii.eqb_spec x c) as [->|_]; [congruence|reflexivity].
Qed.

(** Stripping white space neither adds nor removes a character that is
    not white space. *)
Lemma contains_strip (c : ascii) (s : string) :
  isspace c = false -> contains c (strip s) = contains c s.
Proof.
  intros Hc. unfold strip, rstrip_by.
  now rewrite contains_rev, contains_lstrip_by, contains_rev,
    contains_lstrip_by.
Qed.

Lemma all_chars_rev_onto (f : ascii -> bool) (s acc : string) :
  all_chars f (rev_onto s acc) = all_chars f s && all_chars f acc.
Proof.
  revert acc. induction s as [|x s IH]; intros acc; simpl; [reflexivity|].
  rewrite IH. simpl.
  destruct (f x), (all_chars f s), (all_chars f acc); reflexivity.
Qed.

Lemma rev_onto_empty (s acc : string) : rev_onto s acc = "" -> s = "" /\ acc = "".
Proof.
  revert acc. induction s as [|x s IH]; intros acc H; simpl in H; [now split|].
  apply IH in H. destruct H as [_ H]. discriminate.
Qed.

Lemma lstrip_by_empty (f : ascii -> bool) (s : string) :
  lstrip_by f s = "" -> all_chars f s = true.
Proof.
  induction s as [|x s IH]; simpl; [reflexivity|].
  destruct (f x); [exact IH|discriminate].
Qed.

Lemma rstrip_by_empty (f : ascii -> bool) (s : string) :
  rstrip_by f s = "" -> all_chars f s = true.
Proof.
  unfold rstrip_by, rev. intros H.
  apply rev_onto_empty in H. destruct H as [H _].
  apply lstrip_by_empty in H. rewrite all_chars_rev_onto in H.
  simpl in H. now rewrite andb_true_r in H.
Qed.

Lemma all_chars_repeat (c : ascii) (s : string) :
  all_chars (Ascii.eqb c) s = true -> s = repeat_chr c (String.length s).
Proof.
  induction s as [|x s IH]; simpl; [reflexivity|].
  intros H. apply andb_prop in H. destruct H as [Hx Hs].
  apply Ascii.eqb_eq in Hx. subst x. now rewrite <- IH.
Qed.

(** [posixpath.split] yields an empty head exactly for a token with no
    slash. *)
Lemma split_head_empty (item : string) :
  fst (posixpath.split item) = "" <-> contains "/" item = false.
Proof.
  unfold posixpath.split. simpl fst.
  rewrite <- rfind_succ_0.
  destruct (rfind_succ "/" item) as [|k] eqn:E.
  - simpl. destruct item; simpl; tauto.
  - split; [|discriminate]. intros H. exfalso.
    destruct item as [|x item]; [discriminate E|].
    set (head := take (S k) (String x item)) in *.
    assert (Hne : head <> "") by (unfold head; simpl; discriminate).
    clearbody head.
    destruct (String.eqb_spec head "") as [He|_]; [contradiction|].
    simpl in H.
    destruct (String.eqb_spec head (repeat_chr "/" (String.length head)))
      as [_|Hns]; simpl in H; [contradiction|].
    apply rstrip_by_empty in H. apply all_chars_repeat in H. contradiction.
Qed.

(** The split is at the last slash: the tail is the text after it, and has
    no slash. *)
Lemma split_tail (item : string) :
  snd (posixpath.split item) = after_last "/" item
  /\ contains "/" (snd (posixpath.split item)) = false.
Proof. split; [reflexivity|]. apply contains_after_last. Qed.

End PyStrFacts.

(** ** The completers, step by step *)

Import PyStr PyStrFacts.

Arguments posixpath.split : simpl never.
Arguments posixpath.join : simpl never.
Arguments strip : simpl never.
Arguments slice_eq : simpl never.
Arguments item_split : simpl never.
Arguments attr_split : simpl never.
Arguments object_base : simpl never.
Arguments item_candidates : simpl never.
Arguments _retrieve_obj : simpl never.

Ltac run_py :=
  cbv [bind lift ret raise catch getattr eval readline_set_completer_delims].

Lemma retrieve_obj_paren (name : string) (context : Context) (w : World) :
  contains "(" name = true ->
  _retrieve_obj name context w = (Raise ValueError, w).
Proof. intros H. unfold _retrieve_obj. now rewrite H. Qed.

(** [_retrieve_obj] touches nothing but the record of evaluations, and
    adds to it at most its own argument, which then has no parenthesis. *)
Lemma retrieve_obj_frame (name : string) (context : Context) (w w' : World)
  (r : result PyObj) :
  _retrieve_obj name context w = (r, w') ->
  readline w' = readline w /\ hooks w' = hooks w /\ warnings w' = warnings w
  /\ (forall x, In x (evaluated w') ->
        In x (evaluated w) \/ (x = name /\ contains "(" name = false)).
Proof.
  unfold _retrieve_obj. destruct (contains "(" name) eqn:Hp.
  - intros H. inversion H; subst. now repeat split; auto.
  - run_py.
    destruct (shell_user_ns context) as [ns1|]; simpl;
      [destruct (ns1 name) as [o|e]; [|destruct e]|]; simpl;
      try (destruct (user_ns context) as [ns2|]; simpl);
      intros H; inversion H; subst; simpl;
      (repeat split; auto); intros x Hx;
      repeat (rewrite in_app_iff in Hx; simpl in Hx); intuition auto.
Qed.

(** The item completer in direct style. *)
Lemma h5py_item_completer_eq (context : Context) (command base item : string)
  (w : World) :
  item_split command = Ok (base, item) ->
  h5py_item_completer context command w =
  match _retrieve_obj base context w with
  | (Raise _, w1) => (Ok [], w1)
  | (Ok obj, w1) =>
      match item_candidates obj (fst (posixpath.split item)) with
      | Raise AttributeError => (Ok [], w1)
      | Raise e => (Raise e, w1)
      | Ok items =>
          match readline w1 with
          | None => (Raise AttributeError, w1)
          | Some _ =>
              (Ok (filter (fun i => slice_eq item i) items),
               with_delims item_delims w1)
          end
      end
  end.
Proof.
  intros Hs. unfold h5py_item_completer. run_py. rewrite Hs.
  destruct (_retrieve_obj base context w) as [[obj|e] w1]; [|reflexivity].
  destruct (posixpath.split item) as [path leaf]. simpl.
  destruct (item_candidates obj path) as [items|[]]; try reflexivity.
  destruct (readline w1); reflexivity.
Qed.

Lemma unpack2_raises {A} (l : list A) (e : exn) :
  unpack2 l = Raise e -> e = ValueError.
Proof.
  destruct l as [|a [|b [|c l]]]; simpl; intros H; congruence.
Qed.

Lemma h5py_item_completer_nomatch (context : Context) (command : string)
  (w : World) (e : exn) :
  item_split command = Raise e ->
  h5py_item_completer context command w = (Raise ValueError, w).
Proof.
  intros Hs. unfold h5py_item_completer. run_py. rewrite Hs.
  apply unpack2_raises in Hs. now subst.
Qed.

Section HostFacts.

Variable ip : IPython.
Variable generic : PyObj -> list string -> result (list string).


(** The attribute completer in direct style. *)
Lemma h5py_attr_completer_eq (context : Context) (command base attr : string)
  (w : World) :
  attr_split command = Ok (base, attr) ->
  h5py_attr_completer ip generic context command w =
  match _retrieve_obj (strip base) context w with
  | (Raise _, w1) => (Ok [], w1)
  | (Ok obj, w1) =>
      match attr_listing generic obj with
      | Raise e => (Raise e, w1)
      | Ok attrs =>
          match readline w1 with
          | None => (Raise AttributeError, w1)
          | Some _ =>
              (Ok (map (fun a => strip base ++ "." ++ a)
                     (filter (fun a => slice_eq attr a)
                        (omit_filter (lookup_omit__names ip) attrs))),
               with_delims " =" w1)
          end
      end
  end.
Proof.
  intros Hs. unfold h5py_attr_completer. run_py. rewrite Hs.
  destruct (_retrieve_obj (strip base) context w) as [[obj|e] w1];
    [|reflexivity].
  destruct (attr_listing generic obj) as [attrs|e]; [|reflexivity].
  destruct (readline w1); reflexivity.
Qed.

Lemma h5py_attr_completer_nomatch (context : Context) (command : string)
  (w : World) (e : exn) :
  attr_split command = Raise e ->
  h5py_attr_completer ip generic context command w = (Raise ValueError, w).
Proof.
  intros Hs. unfold h5py_attr_completer. run_py. rewrite Hs.
  apply unpack2_raises in Hs. now subst.
Qed.

(** The hook in direct style. *)
Lemma h5py_completer_eq (self : Context) (event : Event) (base : string)
  (w : World) :
  object_base (line event) = Ok base ->
  h5py_completer ip generic self event w =
  if negb (isinstance_h5 (_ofind self base)) then (Raise TryNext, w)
  else
    match h5py_attr_completer ip generic self (line event) w with
    | (Raise ValueError, w1) =>
        match h5py_item_completer self (line event) w1 with
        | (Raise ValueError, w2) => (Ok [], w2)
        | other => other
        end
    | other => other
    end.
Proof.
  intros Hb. unfold h5py_completer. run_py. rewrite Hb.
  destruct (negb (isinstance_h5 (_ofind self base))); [reflexivity|].
  destruct (h5py_attr_completer ip generic self (line event) w) as [[l|e] w1];
    [reflexivity|].
  destruct e; try reflexivity.
  destruct (h5py_item_completer self (line event) w1) as [[l|e] w2];
    [reflexivity|].
  destruct e; reflexivity.
Qed.

End HostFacts.

(** ** Failed evaluation of the base expression *)

(** C7. When evaluating the base expression raises an exception (the
    refusal of a parenthesis included), the item completer and the
    attribute completer both return the empty list, and the exception goes
    no further. *)
Theorem retrieve_failure_gives_no_completions
  (ip : IPython) (generic : PyObj -> list string -> result (list string))
  (context : Context) (command : string) (w : World) :
  (forall base item e w1,
      item_split command = Ok (base, item) ->
      _retrieve_obj base context w = (Raise e, w1) ->
      h5py_item_completer context command w = (Ok [], w1))
  /\ (forall base attr e w1,
      attr_split command = Ok (base, attr) ->
      _retrieve_obj (strip base) context w = (Raise e, w1) ->
      h5py_attr_completer ip generic context command w = (Ok [], w1)).
Proof.
  split; intros base tok e w1 Hs Hr.
  - rewrite (h5py_item_completer_eq _ _ _ _ _ Hs), Hr. reflexivity.
  - rewrite (h5py_attr_completer_eq _ _ _ _ _ _ _ Hs), Hr. reflexivity.
Qed.

(** C8. A base expression with an opening parenthesis is refused with
    [ValueError] and nothing is evaluated: the world, and with it the record
    of evaluated expressions, is as before.  Both completers then return
    the empty list, and no expression with a parenthesis ever enters the
    record of evaluations. *)
Theorem call_expressions_never_evaluated
  (ip : IPython) (generic : PyObj -> list string -> result (list string))
  (context : Context) (w : World) :
  (forall name,
      contains "(" name = true ->
      _retrieve_obj name context w = (Raise ValueError, w))
  /\ (forall command base item,
      item_split command = Ok (base, item) ->
      contains "(" base = true ->
      h5py_item_completer context command w = (Ok [], w))
  /\ (forall command base attr,
      attr_split command = Ok (base, attr) ->
      contains "(" base = true ->
      h5py_attr_completer ip generic context command w = (Ok [], w))
  /\ (forall name r w',
      _retrieve_obj name context w = (r, w') ->
      forall x, In x (evaluated w') ->
                In x (evaluated w) \/ contains "(" x = false).
Proof.
  repeat split.
  - intros name Hp. now apply retrieve_obj_paren.
  - intros command base item Hs Hp.
    rewrite (h5py_item_completer_eq _ _ _ _ _ Hs).
    now rewrite (retrieve_obj_paren _ _ _ Hp).
  - intros command base attr Hs Hp.
    rewrite (h5py_attr_completer_eq _ _ _ _ _ _ _ Hs).
    rewrite retrieve_obj_paren; [reflexivity|].
    now rewrite contains_strip.
  - intros name r w' Hr x Hx.
    destruct (retrieve_obj_frame _ _ _ _ _ Hr) as (_ & _ & _ & Hev).
    destruct (Hev x Hx) as [H|[-> H]]; auto.
Qed.

(** ** Item completion *)

(** C1, amended.  The line matches the item pattern, the typed token has no
    slash, the base expression evaluates to an object whose [keys()]
    succeeds, and readline was importable: the item completer returns, in
    the order of [keys()], exactly the keys [k] with
    [k[:len(token)] == token], which are the keys the token is a prefix
    of. *)
Theorem item_completer_filters_keys
  (context : Context) (command base item : string) (obj : PyObj)
  (ks : list string) (w w1 : World) (d : string) :
  item_split command = Ok (base, item) ->
  contains "/" item = false ->
  _retrieve_obj base context w = (Ok obj, w1) ->
  obj_keys obj = Ok ks ->
  readline w = Some d ->
  h5py_item_completer context command w =
    (Ok (filter (fun k => slice_eq item k) ks), with_delims item_delims w1)
  /\ (forall k, slice_eq item k = true <-> exists rest, k = item ++ rest).
Proof.
  intros Hs Hsl Hr Hk Hrl. split; [|intros k; apply slice_eq_app].
  rewrite (h5py_item_completer_eq _ _ _ _ _ Hs), Hr.
  apply split_head_empty in Hsl. rewrite Hsl.
  unfold item_candidates. simpl. rewrite Hk.
  destruct (retrieve_obj_frame _ _ _ _ _ Hr) as (Hrl1 & _).
  rewrite Hrl1, Hrl. reflexivity.
Qed.

(** C4, amended.  The line matches the item pattern, the typed token has a
    slash, the base expression evaluates to [obj], [obj[path]] and its
    [keys()] succeed for the head [path] of [posixpath.split], and readline
    was importable: the item completer returns [posixpath.join(path, name)]
    for exactly the names of [obj[path].keys()] whose joined string the
    whole token is a prefix of.  The split is at the last slash: the token
    is the text up to it followed by a leaf without a slash, and [path] is
    not empty. *)
Theorem item_completer_nested_path
  (context : Context) (command base item : string) (obj sub : PyObj)
  (names : list string) (w w1 : World) (d : string) :
  item_split command = Ok (base, item) ->
  contains "/" item = true ->
  _retrieve_obj base context w = (Ok obj, w1) ->
  obj_getitem obj (fst (posixpath.split item)) = Ok sub ->
  obj_keys sub = Ok names ->
  readline w = Some d ->
  let path := fst (posixpath.split item) in
  let leaf := snd (posixpath.split item) in
  h5py_item_completer context command w =
    (Ok (filter (fun i => slice_eq item i)
           (map (fun name => posixpath.join path name) names)),
     with_delims item_delims w1)
  /\ path <> ""
  /\ item = take (rfind_succ "/" item) item ++ leaf
  /\ contains "/" leaf = false
  /\ (forall i, slice_eq item i = true <-> exists rest, i = item ++ rest).
Proof.
  intros Hs Hsl Hr Hg Hk Hrl path leaf.
  assert (Hpath : path <> "").
  { intros Hp. apply split_head_empty in Hp. congruence. }
  repeat split; try assumption.
  - rewrite (h5py_item_completer_eq _ _ _ _ _ Hs), Hr.
    fold path. unfold item_candidates.
    destruct (String.eqb_spec path "") as [He|_]; [contradiction|].
    simpl. unfold path at 1. rewrite Hg. simpl. rewrite Hk. simpl.
    destruct (retrieve_obj_frame _ _ _ _ _ Hr) as (Hrl1 & _).
    rewrite Hrl1, Hrl. reflexivity.
  - symmetry. apply take_drop.
  - apply split_tail.
  - apply slice_eq_app.
  - apply slice_eq_app.
Qed.

Lemma h5py_item_completer_ok (context : Context) (command : string)
  (w w' : World) (l : list string) :
  h5py_item_completer context command w = (Ok l, w') ->
  exists base item,
    item_split command = Ok (base, item)
    /\ forall s, In s l -> slice_eq item s = true.
Proof.
  intros H. destruct (item_split command) as [[base item]|e] eqn:Hs.
  - exists base, item. split; [reflexivity|].
    rewrite (h5py_item_completer_eq _ _ _ _ _ Hs) in H.
    destruct (_retrieve_obj base context w) as [[obj|e] w1].
    + destruct (item_candidates obj (fst (posixpath.split item)))
        as [items|[]]; try discriminate.
      * destruct (readline w1) as [d1|]; [|discriminate].
        inversion H; subst. intros x Hin.
        apply filter_In in Hin. tauto.
      * inversion H; subst. intros x [].
    + inversion H; subst. intros x [].
  - rewrite (h5py_item_completer_nomatch _ _ _ _ Hs) in H. discriminate.
Qed.

(** ** Attribute completion *)

Section AttrFacts.

Variable ip : IPython.
Variable generic : PyObj -> list string -> result (list string).

Lemma h5py_attr_completer_ok (context : Context) (command : string)
  (w w' : World) (l : list string) :
  h5py_attr_completer ip generic context command w = (Ok l, w') ->
  exists base attr,
    attr_split command = Ok (base, attr)
    /\ forall s, In s l ->
         exists a, s = strip base ++ "." ++ a /\ slice_eq attr a = true.
Proof.
  intros H. destruct (attr_split command) as [[base attr]|e] eqn:Hs.
  - exists base, attr. split; [reflexivity|].
    rewrite (h5py_attr_completer_eq _ _ _ _ _ _ _ Hs) in H.
    destruct (_retrieve_obj (strip base) context w) as [[obj|e] w1].
    + destruct (attr_listing generic obj) as [attrs|e]; [|discriminate].
      destruct (readline w1) as [d1|]; [|discriminate].
      inversion H; subst. intros x Hin.
      apply in_map_iff in Hin. destruct Hin as (a & <- & Hin).
      apply filter_In in Hin. exists a; tauto.
    + inversion H; subst. intros x [].
  - rewrite (h5py_attr_completer_nomatch _ _ _ _ _ _ Hs) in H. discriminate.
Qed.

Lemma omit_filter_other (omit : option Z) (attrs : list string) :
  omit <> Some 1%Z -> omit <> Some 2%Z -> omit_filter omit attrs = attrs.
Proof.
  intros H1 H2. unfold omit_filter.
  destruct omit as [[|[p|p|]|p]|]; try reflexivity;
    try destruct p; try reflexivity; congruence.
Qed.

(** C5, amended.  The line matches the attribute pattern, the stripped
    base expression evaluates to an object, its attribute listing ([dir],
    or what [complete_object] makes of it) succeeds, and readline was
    importable: the attribute completer returns [base.a] for exactly the
    names [a] of the listing that pass the [omit__names] filter and that
    the typed token is a prefix of.  With a setting other than 1 and 2 the
    filter keeps every name. *)
Theorem attr_completer_filters_listing
  (context : Context) (command base attr : string) (obj : PyObj)
  (attrs : list string) (w w1 : World) (d : string) :
  attr_split command = Ok (base, attr) ->
  _retrieve_obj (strip base) context w = (Ok obj, w1) ->
  attr_listing generic obj = Ok attrs ->
  readline w = Some d ->
  h5py_attr_completer ip generic context command w =
    (Ok (map (fun a => strip base ++ "." ++ a)
           (filter (fun a => slice_eq attr a)
              (omit_filter (lookup_omit__names ip) attrs))),
     with_delims " =" w1)
  /\ (lookup_omit__names ip <> Some 1%Z -> lookup_omit__names ip <> Some 2%Z ->
      omit_filter (lookup_omit__names ip) attrs = attrs)
  /\ (generic obj (obj_dir obj) = Raise TryNext -> attrs = obj_dir obj)
  /\ (forall l, generic obj (obj_dir obj) = Ok l -> attrs = l)
  /\ (forall a, slice_eq attr a = true <-> exists rest, a = attr ++ rest).
Proof.
  intros Hs Hr Hl Hrl. repeat split.
  - rewrite (h5py_attr_completer_eq _ _ _ _ _ _ _ Hs), Hr, Hl.
    destruct (retrieve_obj_frame _ _ _ _ _ Hr) as (Hrl1 & _).
    rewrite Hrl1, Hrl. reflexivity.
  - apply omit_filter_other.
  - intros Hg. unfold attr_listing in Hl. rewrite Hg in Hl. congruence.
  - intros l Hg. unfold attr_listing in Hl. rewrite Hg in Hl. congruence.
  - apply slice_eq_app.
  - apply slice_eq_app.
Qed.



(** ** The hook *)

(** C3, amended.  Every candidate the hook returns extends the typed
    token.  From attribute completion a candidate is [base.a] with the
    typed attribute token a prefix of [a], and [a] is the text after the
    last dot of the candidate whenever [a] itself has no dot; from item
    completion the typed item token is a prefix of the candidate. *)
Theorem candidates_extend_typed_token
  (self : Context) (event : Event) (w w' : World) (l : list string) :
  h5py_completer ip generic self event w = (Ok l, w') ->
  forall s, In s l ->
    (exists base attr a,
        attr_split (line event) = Ok (base, attr)
        /\ s = strip base ++ "." ++ a
        /\ String.prefix attr a = true
        /\ (contains "." a = false ->
            after_last "." s = a
            /\ String.prefix attr (after_last "." s) = true))
    \/ (exists base item,
        item_split (line event) = Ok (base, item)
        /\ String.prefix item s = true).
Proof.
  intros H s Hin.
  destruct (object_base (line event)) as [base|e] eqn:Hb.
  2:{ unfold h5py_completer in H. run_py. rewrite Hb in H. discriminate. }
  rewrite (h5py_completer_eq _ _ _ _ _ _ Hb) in H.
  destruct (negb (isinstance_h5 (_ofind self base))); [discriminate|].
  destruct (h5py_attr_completer ip generic self (line event) w)
    as [[la|e] w1] eqn:Ha.
  - inversion H; subst la w1. left.
    destruct (h5py_attr_completer_ok _ _ _ _ _ Ha) as (b & attr & Hs & Hall).
    destruct (Hall s Hin) as (a & -> & Hp).
    exists b, attr, a. rewrite slice_eq_prefix in Hp.
    split; [exact Hs|]. split; [reflexivity|]. split; [exact Hp|].
    intros Hdot.
    change (strip b ++ "." ++ a) with (strip b ++ String "." a).
    rewrite (after_last_join _ _ _ Hdot). now split.
  - destruct e; try discriminate.
    destruct (h5py_item_completer self (line event) w1)
      as [[li|e] w2] eqn:Hi.
    + inversion H; subst li w2. right.
      destruct (h5py_item_completer_ok _ _ _ _ _ Hi) as (b & item & Hs & Hall).
      exists b, item. split; [assumption|].
      rewrite <- slice_eq_prefix. auto.
    + destruct e; try discriminate. inversion H; subst. destruct Hin.
Qed.

End AttrFacts.

Section HookFacts.

Variable ip : IPython.
Variable generic : PyObj -> list string -> result (list string).












(** ** Loading the extension *)

(** C10.  [load_ipython_extension] adds [h5py_completer] as the
    [complete_command] hook of the shell, under the key of line 198,
    exactly when readline was importable; otherwise it warns and the hooks
    are as before.  The shell is [ip] when given, else [get_ipython()]. *)
Theorem load_registers_iff_readline (target : option ShellRef) (w : World) :
  let shell := match target with
               | None => ip_ref ip
               | Some r => r
               end in
  let entry :=
    mkHook shell "complete_command" cb_h5py_completer "(?:.*\=)?(.+?)\[" in
  let w' := snd (load_ipython_extension ip target w) in
  fst (load_ipython_extension ip target w) = Ok tt
  /\ (readline w <> None <-> hooks w' = (hooks w ++ [entry])%list)
  /\ (readline w <> None -> warnings w' = warnings w)
  /\ (readline w = None ->
      hooks w' = hooks w
      /\ warnings w' =
         (warnings w
          ++ ["Readline is not available to enable completions."])%list)
  /\ readline w' = readline w
  /\ evaluated w' = evaluated w.
Proof.
  unfold load_ipython_extension, set_hook, warn.
  destruct (readline w) as [d|] eqn:Hrl; simpl.
  - repeat split; try congruence; try reflexivity.
  - repeat split; try congruence; try reflexivity.
    intros H. exfalso.
    apply (f_equal (@length HookEntry)) in H.
    rewrite length_app in H. simpl in H. lia.
Qed.

End HookFacts.

(** ** The theorems at work on the sessions *)

Module Runs.
Import Session.

(** The lines of the module docstring under the three patterns. *)
Example docstring_item : item_split "f['ite" = Ok ("f", "ite").
Proof. vm_compute. reflexivity. Qed.

Example docstring_nested_item :
  item_split "f['item1/item2/it" = Ok ("f", "item1/item2/it").
Proof. vm_compute. reflexivity. Qed.

Example docstring_attr : attr_split "f['item1'].at" = Ok ("f['item1']", "at").
Proof. vm_compute. reflexivity. Qed.

Example docstring_assignment :
  attr_split "a = b = f['item1'].attrs." = Ok (" f['item1'].attrs", "")
  /\ strip " f['item1'].attrs" = "f['item1'].attrs".
Proof. split; vm_compute; reflexivity. Qed.

(** A closed quote is no item to complete, and the object pattern stops
    at the first bracket. *)
Example closed_quote_is_no_item : item_split "f['item1']" = Raise ValueError.
Proof. vm_compute. reflexivity. Qed.

Example object_base_first_bracket : object_base "f['a']['b" = Ok "f".
Proof. vm_compute. reflexivity. Qed.

Lemma retrieve_failure_gives_no_completions_witness :
  h5py_item_completer ctx "nothere['it" w0 = (Ok [], after_eval "nothere")
  /\ h5py_attr_completer (ip 0) no_generic ctx "nothere['a'].x" w0
     = (Ok [], after_eval "nothere['a']").
Proof.
  split.
  - apply (proj1 (retrieve_failure_gives_no_completions (ip 0) no_generic
                    ctx "nothere['it" w0)) with "nothere" "it" NameError;
      vm_compute; reflexivity.
  - apply (proj2 (retrieve_failure_gives_no_completions (ip 0) no_generic
                    ctx "nothere['a'].x" w0)) with "nothere['a']" "x" NameError;
      vm_compute; reflexivity.
Defined.

Lemma call_expressions_never_evaluated_witness :
  _retrieve_obj "g(1)" ctx w0 = (Raise ValueError, w0)
  /\ h5py_item_completer ctx "g(1)['" w0 = (Ok [], w0)
  /\ h5py_attr_completer (ip 0) no_generic ctx "g(1)['a'].x" w0 = (Ok [], w0).
Proof.
  destruct (call_expressions_never_evaluated (ip 0) no_generic ctx w0)
    as (H1 & H2 & H3 & _).
  split; [|split].
  - apply H1. vm_compute; reflexivity.
  - apply H2 with "g(1)" ""; vm_compute; reflexivity.
  - apply H3 with "g(1)['a']" "x"; vm_compute; reflexivity.
Defined.

Lemma item_completer_filters_keys_witness :
  h5py_item_completer ctx "f['ite" w0
  = (Ok ["item1"; "item3"], with_delims item_delims (after_eval "f")).
Proof.
  apply (proj1 (item_completer_filters_keys ctx "f['ite" "f" "ite" f
                  ["item1"; "item3"; "data"] w0 (after_eval "f") ""
                  eq_refl eq_refl eq_refl eq_refl eq_refl)).
Defined.

(** C1 as stated fails where readline could not be imported: the keys are
    there, the completer raises [AttributeError] at line 123. *)
Lemma item_completer_filters_keys_needs_readline :
  ~ (forall context command base item obj ks w w1,
        item_split command = Ok (base, item) ->
        contains "/" item = false ->
        _retrieve_obj base context w = (Ok obj, w1) ->
        obj_keys obj = Ok ks ->
        fst (h5py_item_completer context command w)
        = Ok (filter (fun k => slice_eq item k) ks))
  /\ h5py_item_completer ctx "f['ite" w_noreadline
     = (Raise AttributeError, mkWorld None ["f"] [] []).
Proof.
  split; [|vm_compute; reflexivity].
  intros H.
  specialize (H ctx "f['ite" "f" "ite" f ["item1"; "item3"; "data"]
                w_noreadline (mkWorld None ["f"] [] [])
                eq_refl eq_refl eq_refl eq_refl).
  vm_compute in H. discriminate.
Qed.

Lemma item_completer_nested_path_witness :
  h5py_item_completer ctx "f['item1/it" w0
  = (Ok ["item1/item2"], with_delims item_delims (after_eval "f")).
Proof.
  apply (proj1 (item_completer_nested_path ctx "f['item1/it" "f" "item1/it"
                  f item1 ["item2"; "other"] w0 (after_eval "f") ""
                  eq_refl eq_refl eq_refl eq_refl eq_refl eq_refl)).
Defined.

(** C4 as stated fails where readline could not be imported. *)
Lemma item_completer_nested_path_needs_readline :
  ~ (forall context command base item obj sub names w w1,
        item_split command = Ok (base, item) ->
        contains "/" item = true ->
        _retrieve_obj base context w = (Ok obj, w1) ->
        obj_getitem obj (fst (posixpath.split item)) = Ok sub ->
        obj_keys sub = Ok names ->
        fst (h5py_item_completer context command w)
        = Ok (filter (fun i => slice_eq item i)
                (map (fun name =>
                        posixpath.join (fst (posixpath.split item)) name)
                   names)))
  /\ h5py_item_completer ctx "f['item1/it" w_noreadline
     = (Raise AttributeError, mkWorld None ["f"] [] []).
Proof.
  split; [|vm_compute; reflexivity].
  intros H.
  specialize (H ctx "f['item1/it" "f" "item1/it" f item1 ["item2"; "other"]
                w_noreadline (mkWorld None ["f"] [] [])
                eq_refl eq_refl eq_refl eq_refl eq_refl).
  vm_compute in H. discriminate.
Qed.

Lemma attr_completer_filters_listing_witness :
  h5py_attr_completer (ip 0) no_generic ctx "f['item1'].a" w0
  = (Ok ["f['item1'].attrs"], with_delims " =" (after_eval "f['item1']")).
Proof.
  apply (proj1 (attr_completer_filters_listing (ip 0) no_generic ctx
                  "f['item1'].a" "f['item1']" "a" item1 (obj_dir item1)
                  w0 (after_eval "f['item1']") ""
                  eq_refl eq_refl eq_refl eq_refl)).
Defined.

(** C5 as stated fails under [omit__names = 2], where the listed names
    [_id] and [__class__] extend the token [_] and are not returned, and
    where readline could not be imported. *)
Lemma attr_completer_filters_listing_needs_omit_and_readline :
  ~ (forall ip generic context command base attr obj attrs w w1,
        attr_split command = Ok (base, attr) ->
        _retrieve_obj (strip base) context w = (Ok obj, w1) ->
        attr_listing generic obj = Ok attrs ->
        fst (h5py_attr_completer ip generic context command w)
        = Ok (map (fun a => strip base ++ "." ++ a)
                (filter (fun a => slice_eq attr a) attrs)))
  /\ attr_listing no_generic item1
     = Ok ["attrs"; "keys"; "name"; "_id"; "__class__"]
  /\ h5py_attr_completer (ip 2) no_generic ctx "f['item1']._" w0
     = (Ok [], with_delims " =" (after_eval "f['item1']"))
  /\ h5py_attr_completer (ip 0) no_generic ctx "f['item1']._" w_noreadline
     = (Raise AttributeError, mkWorld None ["f['item1']"] [] []).
Proof.
  split; [|repeat split; vm_compute; reflexivity].
  intros H.
  specialize (H (ip 2) no_generic ctx "f['item1']._" "f['item1']" "_" item1
                (obj_dir item1) w0 (after_eval "f['item1']")
                eq_refl eq_refl eq_refl).
  vm_compute in H. discriminate.
Qed.


Lemma candidates_extend_typed_token_witness :
  (exists base attr a,
      attr_split "f['item1'].a" = Ok (base, attr)
      /\ "f['item1'].attrs" = strip base ++ "." ++ a
      /\ String.prefix attr a = true
      /\ (contains "." a = false ->
          after_last "." "f['item1'].attrs" = a
          /\ String.prefix attr (after_last "." "f['item1'].attrs") = true))
  \/ (exists base item,
        item_split "f['item1'].a" = Ok (base, item)
        /\ String.prefix item "f['item1'].attrs" = true).
Proof.
  apply (candidates_extend_typed_token (ip 0) no_generic ctx
           (mkEvent "f['item1'].a") w0
           (with_delims " =" (after_eval "f['item1']"))
           ["f['item1'].attrs"] eq_refl).
  now left.
Defined.

(** C3 as stated fails: the text after the last dot of a candidate is the
    attribute only when the listed name has no dot, and line 170 does not
    look.  With a listing that holds the name [a.b] (here from a handler
    of [complete_object]), the line [f['item1'].a] gets the candidate
    [f['item1'].a.b], whose text after the last dot is [b]. *)
Lemma candidate_with_dotted_name :
  ~ (forall ip generic self event w w' l s,
        h5py_completer ip generic self event w = (Ok l, w') -> In s l ->
        (exists base attr,
            attr_split (line event) = Ok (base, attr)
            /\ String.prefix attr (after_last "." s) = true)
        \/ (exists base item,
              item_split (line event) = Ok (base, item)
              /\ String.prefix item s = true))
  /\ h5py_completer (ip 0) (fun _ _ => Ok ["a.b"; "attrs"]) ctx
       (mkEvent "f['item1'].a") w0
     = (Ok ["f['item1'].a.b"; "f['item1'].attrs"],
        with_delims " =" (after_eval "f['item1']"))
  /\ attr_split "f['item1'].a" = Ok ("f['item1']", "a")
  /\ item_split "f['item1'].a" = Raise ValueError
  /\ after_last "." "f['item1'].a.b" = "b"
  /\ String.prefix "a" "b" = false.
Proof.
  split; [|repeat split; vm_compute; reflexivity].
  intros H.
  destruct (H (ip 0) (fun _ _ => Ok ["a.b"; "attrs"]) ctx
              (mkEvent "f['item1'].a") w0
              (with_delims " =" (after_eval "f['item1']"))
              ["f['item1'].a.b"; "f['item1'].attrs"] "f['item1'].a.b")
    as [(b & a & Hs & Hp)|(b & i & Hs & _)].
  - vm_compute. reflexivity.
  - now left.
  - vm_compute in Hs. inversion Hs; subst b a.
    vm_compute in Hp. discriminate.
  - vm_compute in Hs. discriminate.
Qed.





Lemma load_registers_iff_readline_witness :
  hooks (snd (load_ipython_extension (ip 0) None w0))
  = [mkHook 0 "complete_command" cb_h5py_completer "(?:.*\=)?(.+?)\["]
  /\ hooks (snd (load_ipython_extension (ip 0) (Some 7) w_noreadline)) = []
  /\ warnings (snd (load_ipython_extension (ip 0) (Some 7) w_noreadline))
     = ["Readline is not available to enable completions."].
Proof.
  split.
  - apply (proj1 (proj1 (proj2 (load_registers_iff_readline (ip 0) None w0)))).
    discriminate.
  - apply (proj1 (proj2 (proj2 (proj2
             (load_registers_iff_readline (ip 0) (Some 7) w_noreadline))))).
    reflexivity.
Defined.

End Runs.

(** * The patterns and the lines they accept *)

Module ReFacts.
Import PyStr Re ReSpec Lines.

Lemma one_sound (p : ascii -> bool) : sound (one p) (step p).
Proof.
  intros st k res H. unfold one in H.
  destruct (ahead st) as [|c t] eqn:Ha; [discriminate|].
  destruct (p c) eqn:Hp; [|discriminate].
  eexists. split; [|exact H]. exists c, t. auto.
Qed.

Lemma one_complete (p : ascii -> bool) : complete (one p) (step p).
Proof.
  intros st k st' (c & t & Ha & Hp & ->) Hk. unfold one.
  now rewrite Ha, Hp.
Qed.

Lemma greedy_sound m R : sound m R -> forall fuel, sound (greedy m fuel) (star R).
Proof.
  intros Hm fuel. induction fuel as [|f IH]; intros st k res H; simpl in H.
  - exists st. split; [constructor|exact H].
  - destruct (m st _) as [r|] eqn:Hb.
    + inversion H; subst r. apply Hm in Hb.
      destruct Hb as (st1 & HR & Hk).
      destruct (progressed st st1) eqn:Hp; [|discriminate].
      apply IH in Hk. destruct Hk as (st2 & Hs & Hk).
      exists st2. split; [|exact Hk]. econstructor; eauto.
    + exists st. split; [constructor|exact H].
Qed.

Lemma greedy_complete m R :
  complete m R ->
  forall st st', star R st st' ->
  forall fuel k, String.length (ahead st) <= fuel -> k st' <> None ->
  greedy m fuel st k <> None.
Proof.
  intros Hm st st' Hs. induction Hs as [st|st st1 st2 HR Hp Hs IH];
    intros fuel k Hf Hk.
  - destruct fuel as [|f]; simpl; [exact Hk|].
    destruct (m st _); [discriminate|exact Hk].
  - unfold progressed in Hp. apply Nat.ltb_lt in Hp.
    destruct fuel as [|f]; [lia|]. simpl.
    destruct (m st _) as [r|] eqn:Hb; [discriminate|]. exfalso.
    revert Hb. apply (Hm _ _ st1 HR).
    unfold progressed. destruct (Nat.ltb_spec (String.length (ahead st1))
                                   (String.length (ahead st))); [|lia].
    apply IH; [lia|exact Hk].
Qed.

Lemma lazy_sound m R : sound m R -> forall fuel, sound (lazy m fuel) (star R).
Proof.
  intros Hm fuel. induction fuel as [|f IH]; intros st k res H; simpl in H.
  - destruct (k st) as [r|] eqn:Hk; [|discriminate].
    inversion H; subst r. exists st. split; [constructor|exact Hk].
  - destruct (k st) as [r|] eqn:Hk.
    + inversion H; subst r. exists st. split; [constructor|exact Hk].
    + apply Hm in H. destruct H as (st1 & HR & H).
      destruct (progressed st st1) eqn:Hp; [|discriminate].
      apply IH in H. destruct H as (st2 & Hs & H).
      exists st2. split; [|exact H]. econstructor; eauto.
Qed.

Lemma lazy_complete m R :
  complete m R ->
  forall st st', star R st st' ->
  forall fuel k, String.length (ahead st) <= fuel -> k st' <> None ->
  lazy m fuel st k <> None.
Proof.
  intros Hm st st' Hs. induction Hs as [st|st st1 st2 HR Hp Hs IH];
    intros fuel k Hf Hk.
  - destruct fuel as [|f]; simpl; destruct (k st); congruence.
  - unfold progressed in Hp. apply Nat.ltb_lt in Hp.
    destruct fuel as [|f]; [lia|]. simpl.
    destruct (k st); [discriminate|].
    apply (Hm _ _ st1 HR).
    unfold progressed. destruct (Nat.ltb_spec (String.length (ahead st1))
                                   (String.length (ahead st))); [|lia].
    apply IH; [lia|exact Hk].
Qed.

(** The matcher is sound and complete for the relational reading. *)
Lemma mtch_adequate (r : regex) :
  sound (mtch r) (matches r) /\ complete (mtch r) (matches r).
Proof.
  induction r as [c| |cs| |r1 [S1 C1] r2 [S2 C2]|r1 [S1 C1]|r1 [S1 C1]
                 |r1 [S1 C1]|r1 [S1 C1]|n r1 [S1 C1]|n|r1 [S1 C1]|];
    try (split; [apply one_sound|apply one_complete]).
  - (* Cat *)
    split.
    + intros st k res H. simpl in H. apply S1 in H.
      destruct H as (st1 & H1 & H). apply S2 in H.
      destruct H as (st2 & H2 & H). exists st2. split; [|exact H].
      now exists st1.
    + intros st k st' (st1 & H1 & H2) Hk. simpl.
      apply (C1 _ _ st1 H1). now apply (C2 _ _ st' H2).
  - (* Opt *)
    split.
    + intros st k res H. simpl in H.
      destruct (mtch r1 st k) as [x|] eqn:Hm.
      * inversion H; subst x. apply S1 in Hm.
        destruct Hm as (st' & H1 & Hk). exists st'. split; [now left|exact Hk].
      * exists st. split; [now right|exact H].
    + intros st k st' [H1| ->] Hk; simpl.
      * destruct (mtch r1 st k) eqn:Hm; [discriminate|].
        exfalso. revert Hm. now apply (C1 _ _ st' H1).
      * destruct (mtch r1 st k); [discriminate|exact Hk].
  - (* Star *)
    split.
    + intros st k res H. simpl in H. now apply (greedy_sound _ _ S1) in H.
    + intros st k st' H Hk. simpl.
      now apply (greedy_complete _ _ C1 _ _ H).
  - (* Plus *)
    split.
    + intros st k res H. simpl in H. apply S1 in H.
      destruct H as (st1 & H1 & H). apply (greedy_sound _ _ S1) in H.
      destruct H as (st2 & H2 & H). exists st2. split; [|exact H].
      now exists st1.
    + intros st k st' (st1 & H1 & H2) Hk. simpl.
      apply (C1 _ _ st1 H1). now apply (greedy_complete _ _ C1 _ _ H2).
  - (* PlusLazy *)
    split.
    + intros st k res H. simpl in H. apply S1 in H.
      destruct H as (st1 & H1 & H). apply (lazy_sound _ _ S1) in H.
      destruct H as (st2 & H2 & H). exists st2. split; [|exact H].
      now exists st1.
    + intros st k st' (st1 & H1 & H2) Hk. simpl.
      apply (C1 _ _ st1 H1). now apply (lazy_complete _ _ C1 _ _ H2).
  - (* Group *)
    split.
    + intros st k res H. simpl in H. apply S1 in H.
      destruct H as (st1 & H1 & H). eexists. split; [|exact H].
      exists st1. auto.
    + intros st k st' (st1 & H1 & ->) Hk. simpl.
      now apply (C1 _ _ st1 H1).
  - (* Backref *)
    split.
    + intros st k res H. simpl in H.
      destruct (lookup_cap n (caps st)) as [t|] eqn:Hc; [|discriminate].
      destruct (String.prefix t (ahead st)) eqn:Hp; [|discriminate].
      eexists. split; [|exact H]. exists t. auto.
    + intros st k st' (t & Hc & Hp & ->) Hk. simpl. now rewrite Hc, Hp.
  - (* NotAhead *)
    split.
    + intros st k res H. simpl in H.
      destruct (mtch r1 st Some) as [x|] eqn:Hm; [discriminate|].
      exists st. split; [|exact H]. split; [|reflexivity].
      intros st1 H1. revert Hm. apply (C1 _ _ st1 H1). discriminate.
    + intros st k st' (Hno & ->) Hk. simpl.
      destruct (mtch r1 st Some) as [x|] eqn:Hm; [|exact Hk].
      apply S1 in Hm. destruct Hm as (st1 & H1 & _). now destruct (Hno st1).
  - (* EndAnchor *)
    split.
    + intros st k res H. simpl in H.
      destruct (String.eqb_spec (ahead st) "") as [He|Hne]; simpl in H.
      * exists st. split; [split; [now left|reflexivity]|exact H].
      * destruct (String.eqb_spec (ahead st) (str1 LF)) as [He|Hne'];
          [|discriminate].
        exists st. split; [split; [now right|reflexivity]|exact H].
    + intros st k st' ([He|He] & ->) Hk; simpl; rewrite He; simpl;
        exact Hk.
Qed.

End ReFacts.

Module MatchFacts.
Import PyStr PyStrFacts Re ReSpec ReFacts Lines.

Lemma sapp_assoc (a b c : string) : (a ++ b) ++ c = a ++ b ++ c.
Proof. induction a as [|x a IH]; simpl; [reflexivity|now rewrite IH]. Qed.

Lemma sapp_nil_r (a : string) : a ++ "" = a.
Proof. induction a as [|x a IH]; simpl; [reflexivity|now rewrite IH]. Qed.

Lemma slength_app (a b : string) :
  String.length (a ++ b) = String.length a + String.length b.
Proof. induction a as [|x a IH]; simpl; [reflexivity|now rewrite IH]. Qed.

Lemma take_app_length (a b : string) : take (String.length a) (a ++ b) = a.
Proof. induction a as [|x a IH]; simpl; [now destruct b|now rewrite IH]. Qed.

Lemma drop_app_length (a b : string) : drop (String.length a) (a ++ b) = b.
Proof. induction a as [|x a IH]; simpl; [now destruct b|exact IH]. Qed.

Lemma contains_split (c : ascii) (s : string) :
  contains c s = true -> exists a b, s = a ++ String c b /\ contains c a = false.
Proof.
  induction s as [|x s IH]; simpl; [discriminate|].
  destruct (Ascii.eqb_spec x c) as [->|Hne]; simpl.
  - intros _. now exists "", s.
  - intros H. destruct (IH H) as (a & b & -> & Ha).
    exists (String x a), b. split; [reflexivity|]. simpl.
    destruct (Ascii.eqb_spec x c); [contradiction|exact Ha].
Qed.

Lemma all_chars_app (p : ascii -> bool) (a b : string) :
  all_chars p (a ++ b) = all_chars p a && all_chars p b.
Proof.
  induction a as [|x a IH]; simpl; [reflexivity|].
  now rewrite IH, andb_assoc.
Qed.

Lemma all_chars_contains (p : ascii -> bool) (c : ascii) (s : string) :
  all_chars p s = true -> p c = false -> contains c s = false.
Proof.
  intros Hs Hc. induction s as [|x s IH]; simpl in *; [reflexivity|].
  apply andb_prop in Hs. destruct Hs as [Hx Hs].
  destruct (Ascii.eqb_spec x c) as [->|_]; [congruence|]. now apply IH.
Qed.

Lemma all_notLF (s : string) : all_chars notLF s = negb (contains LF s).
Proof.
  induction s as [|x s IH]; simpl; [reflexivity|].
  rewrite IH. unfold notLF. now rewrite negb_orb.
Qed.

(** A run of characters that satisfy [p] is what [star (step p)] consumes. *)
Lemma star_step_inv (p : ascii -> bool) (st st' : mstate) :
  star (step p) st st' ->
  exists s, all_chars p s = true /\ ahead st = s ++ ahead st'
            /\ offset st' = offset st + String.length s
            /\ caps st' = caps st.
Proof.
  induction 1 as [st|st st1 st2 (c & t & Ha & Hp & ->) _ _ (s & Hs & Ht & Ho & Hc)].
  - exists "". simpl. auto.
  - exists (String c s). simpl in *. rewrite Hp, Hs, Ha, Ht, Ho.
    repeat split; auto; lia.
Qed.

Lemma star_step_intro (p : ascii -> bool) (s t : string) (o : nat)
  (c : list (nat * string)) :
  all_chars p s = true ->
  star (step p) (mkState o (s ++ t) c) (mkState (o + String.length s) t c).
Proof.
  revert o. induction s as [|x s IH]; intros o Hs; simpl in *.
  - rewrite Nat.add_0_r. constructor.
  - apply andb_prop in Hs. destruct Hs as [Hx Hs].
    apply star_cons with (mkState (S o) (s ++ t) c).
    + exists x, (s ++ t). auto.
    + unfold progressed. simpl. apply Nat.ltb_lt. lia.
    + replace (o + S (String.length s)) with (S o + String.length s) by lia.
      now apply IH.
Qed.

(** The text a group has captured. *)
Lemma captured (st st1 : mstate) (s : string) :
  ahead st = s ++ ahead st1 -> offset st1 = offset st + String.length s ->
  take (offset st1 - offset st) (ahead st) = s.
Proof.
  intros Ha Ho. rewrite Ha, Ho.
  replace (offset st + String.length s - offset st) with (String.length s)
    by lia.
  apply take_app_length.
Qed.

(** [search] finds a match at some offset of the text, and none when no
    offset has one. *)
Lemma search_some (r : regex) (s : string) (off b : nat) (st : mstate) :
  search r off s = Some (b, st) ->
  exists pre s', s = pre ++ s' /\ b = off + String.length pre
                 /\ matches r (mkState b s' []) st.
Proof.
  revert off. induction s as [|x s IH]; intros off H; simpl in H.
  - destruct (mtch r (mkState off "" []) Some) as [st0|] eqn:Hm;
      [|discriminate].
    inversion H; subst. exists "", "". simpl. rewrite Nat.add_0_r.
    repeat split; auto.
    destruct (proj1 (mtch_adequate r) _ _ _ Hm) as (st' & Hst & Heq).
    now inversion Heq; subst.
  - destruct (mtch r (mkState off (String x s) []) Some) as [st0|] eqn:Hm.
    + inversion H; subst. exists "", (String x s). simpl.
      rewrite Nat.add_0_r. repeat split; auto.
      destruct (proj1 (mtch_adequate r) _ _ _ Hm) as (st' & Hst & Heq).
      now inversion Heq; subst.
    + apply IH in H. destruct H as (pre & s' & -> & -> & Hm').
      exists (String x pre), s'. simpl.
      replace (off + S (String.length pre)) with (S off + String.length pre)
        by lia.
      now repeat split.
Qed.

Lemma search_first (r : regex) (s : string) (off : nat) (st : mstate) :
  matches r (mkState off s []) st ->
  exists st', search r off s = Some (off, st')
              /\ matches r (mkState off s []) st'.
Proof.
  intros Hm.
  destruct (mtch r (mkState off s []) Some) as [st0|] eqn:Hm0.
  - exists st0. split.
    + destruct s; simpl; now rewrite Hm0.
    + destruct (proj1 (mtch_adequate r) _ _ _ Hm0) as (st' & Hst & Heq).
      now inversion Heq; subst.
  - exfalso. revert Hm0.
    apply (proj2 (mtch_adequate r) _ _ _ Hm). discriminate.
Qed.

(** [split] around the first match, when it is not empty; the text alone
    when there is no match. *)
Lemma split_no_match (r : regex) (s : string) :
  search r 0 s = None -> Re.split r s = [s].
Proof.
  intros H. unfold Re.split.
  replace (String.length s + 2) with (S (String.length s + 1)) by lia.
  simpl. now rewrite H.
Qed.

Lemma split_first_match (r : regex) (s : string) (b : nat) (st : mstate) :
  search r 0 s = Some (b, st) -> offset st <> b ->
  Re.split r s
  = take b s :: (groups (ngroups r) st
                 ++ split_loop r (String.length s + 1) (offset st) (offset st) s)%list.
Proof.
  intros H Hne. unfold Re.split.
  replace (String.length s + 2) with (S (String.length s + 1)) by lia.
  simpl.
  rewrite H.
  destruct (Nat.eqb_spec (offset st) b) as [He|_]; [contradiction|].
  now rewrite Nat.sub_0_r.
Qed.

End MatchFacts.

Module PatternFacts.
Import PyStr PyStrFacts Re ReSpec ReFacts MatchFacts Lines.

Lemma step_inv (p : ascii -> bool) (st st' : mstate) :
  step p st st' ->
  exists c, p c = true /\ ahead st = String c (ahead st')
            /\ offset st' = S (offset st) /\ caps st' = caps st.
Proof. intros (c & t & Ha & Hp & ->). exists c. simpl. auto. Qed.

Lemma lit_inv (c : ascii) (st st' : mstate) :
  step (Ascii.eqb c) st st' ->
  ahead st = String c (ahead st')
  /\ offset st' = S (offset st) /\ caps st' = caps st.
Proof.
  intros H. apply step_inv in H. destruct H as (x & Hx & H).
  apply Ascii.eqb_eq in Hx. now subst x.
Qed.

Lemma dots_inv (st st' : mstate) :
  star (matches Dot) st st' ->
  exists s, contains LF s = false /\ ahead st = s ++ ahead st'
            /\ offset st' = offset st + String.length s
            /\ caps st' = caps st.
Proof.
  intros H. apply star_step_inv in H. destruct H as (s & Hs & H).
  exists s. split; [|exact H].
  change (all_chars notLF s = true) in Hs. rewrite all_notLF in Hs.
  now apply negb_true_iff.
Qed.

Lemma dots_intro (s t : string) (o : nat) (c : list (nat * string)) :
  contains LF s = false ->
  star (matches Dot) (mkState o (s ++ t) c)
    (mkState (o + String.length s) t c).
Proof.
  intros Hs. apply (star_step_intro notLF). rewrite all_notLF.
  now apply negb_true_iff.
Qed.

(** The optional prefix of the three patterns: nothing, or a run of
    characters up to an equals sign. *)
Lemma prefix_inv (st st' : mstate) :
  matches (Opt (Star Dot @@ Lit "=")) st st' ->
  exists pre, ahead st = pre ++ ahead st'
    /\ offset st' = offset st + String.length pre
    /\ caps st' = caps st
    /\ (pre = "" \/ exists p, pre = p ++ "=" /\ contains LF p = false).
Proof.
  simpl. intros [(st1 & Hd & Hl)| ->].
  - apply dots_inv in Hd. destruct Hd as (p & Hp & Ha & Ho & Hc).
    apply lit_inv in Hl. destruct Hl as (Ha' & Ho' & Hc').
    exists (p ++ "="). rewrite sapp_assoc, slength_app. simpl.
    rewrite Ha, Ha', Ho', Ho, Hc', Hc. repeat split; auto; [lia|].
    right. now exists p.
  - exists "". simpl. auto.
Qed.

Lemma item_match_anatomy (b : nat) (s : string) (st : mstate) :
  matches re_item_match (mkState b s []) st ->
  exists pre base q item,
    s = pre ++ base ++ String "[" (String q (item ++ ahead st))
    /\ (ahead st = "" \/ ahead st = str1 LF)
    /\ In q ["'"; "|"; DQUOTE]%char
    /\ contains LF base = false /\ contains LF item = false
    /\ contains q item = false
    /\ (pre = "" \/ exists p, pre = p ++ "=" /\ contains LF p = false)
    /\ caps st = [(3, item); (2, str1 q); (1, base)]
    /\ offset st
       = b + String.length pre + String.length base + 2 + String.length item.
Proof.
  unfold re_item_match.
  intros (st1 & Hpre & st2 & (st2' & Hd1 & ->) & st3 & Hbr
          & st4 & (st4' & Hq & ->) & st5 & (Hno & ->)
          & st6 & (st6' & Hd3 & ->) & Hend & ->).
  apply prefix_inv in Hpre. destruct Hpre as (pre & Ha0 & Ho0 & Hc0 & Hpre).
  simpl in Ha0, Ho0, Hc0.
  apply dots_inv in Hd1. destruct Hd1 as (base & Hb & Ha1 & Ho1 & Hc1).
  apply lit_inv in Hbr. destruct Hbr as (Ha2 & Ho2 & Hc2).
  apply step_inv in Hq. destruct Hq as (q & Hqs & Ha3 & Ho3 & Hc3).
  apply dots_inv in Hd3. destruct Hd3 as (item & Hi & Ha4 & Ho4 & Hc4).
  simpl in *.
  assert (Hcap1 : take (offset st2' - offset st1) (ahead st1) = base)
    by (now apply captured).
  assert (Hcap2 : take (offset st4' - offset st3) (ahead st3) = str1 q)
    by (apply captured; [now rewrite Ha3|simpl; lia]).
  assert (Hcap3 : take (offset st6' - offset st4') (ahead st4') = item)
    by (now apply captured).
  rewrite Hcap3, Hc4. simpl. rewrite Hcap2, Hc3, Hc2, Hcap1, Hc1, Hc0.
  exists pre, base, q, item.
  assert (Hqi : contains q item = false).
  { destruct (contains q item) eqn:Hc; [|reflexivity]. exfalso.
    apply contains_split in Hc. destruct Hc as (a & c & -> & _).
    rewrite contains_app in Hi. apply orb_false_elim in Hi.
    destruct Hi as [Hia _].
    apply (Hno (mkState (offset st4' + String.length a + 1)
                  (drop 1 (String q c ++ ahead st6'))
                  ((2, take (offset st4' - offset st3) (ahead st3))
                     :: caps st4'))).
    exists (mkState (offset st4' + String.length a)
              (String q c ++ ahead st6')
              ((2, take (offset st4' - offset st3) (ahead st3))
                 :: caps st4')).
    split.
    - rewrite Ha4, sapp_assoc. now apply dots_intro.
    - exists (str1 q). simpl. rewrite Hcap2. simpl.
      destruct (ascii_dec q q) as [_|Hne]; [|contradiction].
      repeat split. now destruct (c ++ ahead st6'). }
  repeat split; auto.
  - rewrite Ha0, Ha1, Ha2, Ha3, Ha4. reflexivity.
  - simpl in Hqs. rewrite !orb_false_r in Hqs.
    apply orb_prop in Hqs. destruct Hqs as [H|H];
      [left; symmetry; now apply Ascii.eqb_eq|].
    apply orb_prop in H. destruct H as [H|H];
      [right; left|right; right; left]; symmetry; now apply Ascii.eqb_eq.
  - rewrite Ho4, Ho3, Ho2, Ho1, Ho0. lia.
Qed.

Lemma attr_match_anatomy (b : nat) (s : string) (st : mstate) :
  matches re_attr_match (mkState b s []) st ->
  exists pre x y z attr,
    s = pre ++ (x ++ String "[" (y ++ String "]" z))
            ++ String "." (attr ++ ahead st)
    /\ (ahead st = "" \/ ahead st = str1 LF)
    /\ x <> ""
    /\ contains LF x = false /\ contains LF y = false
    /\ contains LF z = false
    /\ all_chars isword attr = true
    /\ (pre = "" \/ exists p, pre = p ++ "=" /\ contains LF p = false)
    /\ caps st = [(2, attr); (1, x ++ String "[" (y ++ String "]" z))]
    /\ b < offset st.
Proof.
  unfold re_attr_match.
  intros (st1 & Hpre & st2
          & (st2' & (a1 & (a0 & Hx0 & Hx) & a2 & Hl1 & a3 & Hy & a4 & Hl2 & Hz)
             & ->)
          & st3 & Hdot & st4 & (st4' & Hw & ->) & Hend & ->).
  apply prefix_inv in Hpre. destruct Hpre as (pre & Ha0 & Ho0 & Hc0 & Hpre).
  apply step_inv in Hx0. destruct Hx0 as (c & Hc & Hax0 & Hox0 & Hcx0).
  apply dots_inv in Hx. destruct Hx as (x & Hxn & Hax & Hox & Hcx).
  apply lit_inv in Hl1. destruct Hl1 as (Hal1 & Hol1 & Hcl1).
  apply dots_inv in Hy. destruct Hy as (y & Hyn & Hay & Hoy & Hcy).
  apply lit_inv in Hl2. destruct Hl2 as (Hal2 & Hol2 & Hcl2).
  apply dots_inv in Hz. destruct Hz as (z & Hzn & Haz & Hoz & Hcz).
  apply lit_inv in Hdot. destruct Hdot as (Had & Hod & Hcd).
  apply star_step_inv in Hw. destruct Hw as (attr & Hattr & Haw & How & Hcw).
  simpl in *.
  set (base := String c x ++ String "[" (y ++ String "]" z)).
  assert (Hbase : ahead st1 = base ++ ahead st2').
  { unfold base. rewrite Hax0, Hax, Hal1, Hay, Hal2, Haz. simpl.
    rewrite ?sapp_assoc. simpl. now rewrite ?sapp_assoc. }
  assert (Hlen : offset st2' = offset st1 + String.length base).
  { unfold base. rewrite Hoz, Hol2, Hoy, Hol1, Hox, Hox0. simpl.
    rewrite ?slength_app. simpl. rewrite ?slength_app. simpl. lia. }
  assert (Hcap1 : take (offset st2' - offset st1) (ahead st1) = base)
    by (now apply captured).
  assert (Hcap2 : take (offset st4' - offset st3) (ahead st3) = attr)
    by (now apply captured).
  exists pre, (String c x), y, z, attr. fold base.
  rewrite Hcap2, Hcw, Hcd, Hcap1, Hcz, Hcl2, Hcy, Hcl1, Hcx, Hcx0, Hc0.
  repeat split; auto.
  - rewrite Ha0, Hbase, Had, Haw. reflexivity.
  - discriminate.
  - simpl. rewrite Hxn.
    apply negb_true_iff in Hc. now rewrite Hc.
  - rewrite How, Hod, Hlen, Ho0. lia.
Qed.

Lemma object_match_anatomy (b : nat) (s : string) (st : mstate) :
  matches re_object_match (mkState b s []) st ->
  exists pre base,
    s = pre ++ base ++ String "[" (ahead st)
    /\ base <> "" /\ contains LF base = false
    /\ (pre = "" \/ exists p, pre = p ++ "=" /\ contains LF p = false)
    /\ caps st = [(1, base)]
    /\ offset st = b + String.length pre + String.length base + 1.
Proof.
  unfold re_object_match.
  intros (st1 & Hpre & st2 & (st2' & (a0 & Hx0 & Hx) & ->) & Hl).
  apply prefix_inv in Hpre. destruct Hpre as (pre & Ha0 & Ho0 & Hc0 & Hpre).
  apply step_inv in Hx0. destruct Hx0 as (c & Hc & Hax0 & Hox0 & Hcx0).
  apply dots_inv in Hx. destruct Hx as (x & Hxn & Hax & Hox & Hcx).
  apply lit_inv in Hl. destruct Hl as (Hal & Hol & Hcl).
  simpl in *.
  assert (Hcap1 : take (offset st2' - offset st1) (ahead st1) = String c x).
  { apply captured; [now rewrite Hax0, Hax|]. rewrite Hox, Hox0. simpl. lia. }
  exists pre, (String c x).
  rewrite Hcl, Hcap1, Hcx, Hcx0, Hc0.
  repeat split; auto.
  - rewrite Ha0, Hax0, Hax, Hal. reflexivity.
  - discriminate.
  - simpl. rewrite Hxn. apply negb_true_iff in Hc. now rewrite Hc.
  - rewrite Hol, Hox, Hox0, Ho0. simpl. lia.
Qed.

End PatternFacts.

Module SplitFacts.
Import PyStr PyStrFacts Re ReSpec ReFacts MatchFacts PatternFacts Lines.

(** [split] for a pattern that matches no empty text: the text alone, or
    the text before the first match, its groups, and more. *)
Lemma split_shape (r : regex) (s : string) :
  (forall b s' st, matches r (mkState b s' []) st -> b < offset st) ->
  (search r 0 s = None /\ Re.split r s = [s])
  \/ (exists pre s' st tail,
        s = pre ++ s'
        /\ matches r (mkState (String.length pre) s' []) st
        /\ Re.split r s = pre :: (groups (ngroups r) st ++ tail)%list).
Proof.
  intros Hne. destruct (search r 0 s) as [[b st]|] eqn:Hs.
  - right. destruct (search_some _ _ _ _ _ Hs) as (pre & s' & -> & -> & Hm).
    simpl in Hm. exists pre, s', st. eexists. split; [reflexivity|].
    split; [exact Hm|].
    rewrite (split_first_match _ _ _ _ Hs).
    + simpl. now rewrite take_app_length.
    + apply Hne in Hm. simpl. lia.
  - left. split; [reflexivity|now apply split_no_match].
Qed.

Lemma item_match_nonempty b s st :
  matches re_item_match (mkState b s []) st -> b < offset st.
Proof.
  intros H. apply item_match_anatomy in H.
  destruct H as (pre & base & q & item & _ & _ & _ & _ & _ & _ & _ & _ & Ho).
  lia.
Qed.

Lemma attr_match_nonempty b s st :
  matches re_attr_match (mkState b s []) st -> b < offset st.
Proof.
  intros H. apply attr_match_anatomy in H.
  now destruct H as (pre & x & y & z & attr & _ & _ & _ & _ & _ & _ & _ & _ & _ & Ho).
Qed.

Lemma object_match_nonempty b s st :
  matches re_object_match (mkState b s []) st -> b < offset st.
Proof.
  intros H. apply object_match_anatomy in H.
  destruct H as (pre & base & _ & _ & _ & _ & _ & Ho). lia.
Qed.

(** The lines on which the splits of the module succeed. *)
Lemma item_split_inv (command base item : string) :
  item_split command = Ok (base, item) ->
  exists pre0 pre q post,
    command = pre0 ++ pre ++ base ++ String "[" (String q (item ++ post))
    /\ (post = "" \/ post = str1 LF)
    /\ In q ["'"; "|"; DQUOTE]%char
    /\ contains LF base = false /\ contains LF item = false
    /\ contains q item = false
    /\ (pre = "" \/ exists p, pre = p ++ "=" /\ contains LF p = false).
Proof.
  unfold item_split. intros H.
  destruct (split_shape re_item_match command item_match_nonempty)
    as [[_ Hs]|(pre0 & s & st & tail & -> & Hm & Hs)];
    rewrite Hs in H; [discriminate|].
  apply item_match_anatomy in Hm.
  destruct Hm as (pre & b & q & i & -> & Hend & Hq & Hb & Hi & Hqi & Hp & Hc & _).
  change (ngroups re_item_match) with 3 in H.
  unfold groups in H. rewrite Hc in H. simpl in H.
  inversion H; subst b i.
  exists pre0, pre, q, (ahead st). auto 10.
Qed.

Lemma attr_split_inv (command base attr : string) :
  attr_split command = Ok (base, attr) ->
  exists pre0 pre post x y z,
    command = pre0 ++ pre ++ base ++ String "." (attr ++ post)
    /\ base = x ++ String "[" (y ++ String "]" z)
    /\ (post = "" \/ post = str1 LF)
    /\ x <> ""
    /\ contains LF x = false /\ contains LF y = false
    /\ contains LF z = false
    /\ all_chars isword attr = true
    /\ (pre = "" \/ exists p, pre = p ++ "=" /\ contains LF p = false).
Proof.
  unfold attr_split. intros H.
  destruct (split_shape re_attr_match command attr_match_nonempty)
    as [[_ Hs]|(pre0 & s & st & tail & -> & Hm & Hs)];
    rewrite Hs in H; [discriminate|].
  apply attr_match_anatomy in Hm.
  destruct Hm as (pre & x & y & z & a & -> & Hend & Hx & Hxn & Hyn & Hzn
                  & Ha & Hp & Hc & _).
  change (ngroups re_attr_match) with 2 in H.
  unfold groups in H. rewrite Hc in H. simpl in H.
  inversion H; subst base a.
  exists pre0, pre, (ahead st), x, y, z. auto 12.
Qed.

Lemma object_base_inv (l base : string) :
  object_base l = Ok base ->
  exists pre0 pre post,
    l = pre0 ++ pre ++ base ++ String "[" post
    /\ base <> "" /\ contains LF base = false
    /\ (pre = "" \/ exists p, pre = p ++ "=" /\ contains LF p = false).
Proof.
  unfold object_base. intros H.
  destruct (split_shape re_object_match l object_match_nonempty)
    as [[_ Hs]|(pre0 & s & st & tail & -> & Hm & Hs)];
    rewrite Hs in H; [discriminate|].
  apply object_match_anatomy in Hm.
  destruct Hm as (pre & b & -> & Hb & Hbn & Hp & Hc & _).
  change (ngroups re_object_match) with 1 in H.
  unfold groups in H. rewrite Hc in H. simpl in H.
  inversion H; subst b.
  exists pre0, pre, (ahead st). auto.
Qed.

Lemma index_raises {A} (l : list A) (i : nat) (e : exn) :
  index l i = Raise e -> e = IndexError.
Proof. unfold index. destruct (nth_error l i); congruence. Qed.

End SplitFacts.

Module StringEquations.
Import PyStr PyStrFacts MatchFacts Lines.

(** Two ways to cut a text at a character [c] are the same cut, or one
    cut lies before the other. *)
Lemma sapp_eq_cons (c : ascii) (a b a' b' : string) :
  a ++ String c b = a' ++ String c b' ->
  (a = a' /\ b = b')
  \/ (exists m, a' = a ++ String c m /\ b = m ++ String c b')
  \/ (exists m, a = a' ++ String c m /\ b' = m ++ String c b).
Proof.
  revert a'. induction a as [|x a IH]; intros [|y a'] H; simpl in H.
  - inversion H. now left.
  - inversion H; subst. right. left. now exists a'.
  - inversion H; subst. right. right. now exists a.
  - inversion H; subst. destruct (IH _ H2) as [[-> ->]|[(m & -> & ->)|(m & -> & ->)]].
    + now left.
    + right. left. now exists m.
    + right. right. now exists m.
Qed.

(** The cut at the last [c] is unique. *)
Lemma split_last_unique (c : ascii) (a b a' b' : string) :
  a ++ String c b = a' ++ String c b' ->
  contains c b = false -> contains c b' = false -> a = a' /\ b = b'.
Proof.
  intros H Hb Hb'.
  destruct (sapp_eq_cons _ _ _ _ _ H) as [E|[(m & _ & ->)|(m & _ & ->)]].
  - exact E.
  - rewrite contains_app in Hb. simpl in Hb.
    rewrite Ascii.eqb_refl in Hb. simpl in Hb.
    now rewrite orb_true_r in Hb.
  - rewrite contains_app in Hb'. simpl in Hb'.
    rewrite Ascii.eqb_refl in Hb'. simpl in Hb'.
    now rewrite orb_true_r in Hb'.
Qed.

Lemma contains_here (c : ascii) (a b : string) :
  contains c (a ++ String c b) = true.
Proof.
  rewrite contains_app. simpl. rewrite Ascii.eqb_refl. simpl.
  apply orb_true_r.
Qed.

Lemma sapp_nil_inv (a b : string) : a ++ b = "" -> a = "" /\ b = "".
Proof. destruct a; simpl; [auto|discriminate]. Qed.

Lemma sapp_inv_head (a b c : string) : a ++ b = a ++ c -> b = c.
Proof.
  induction a as [|x a IH]; simpl; [auto|]. intros H. inversion H. auto.
Qed.

Lemma sapp_eq_self_r (a b : string) : a ++ b = a -> b = "".
Proof.
  intros H. apply (sapp_inv_head a). now rewrite sapp_nil_r.
Qed.

Lemma contains_app_r (c : ascii) (a b : string) :
  contains c b = true -> contains c (a ++ b) = true.
Proof. intros H. rewrite contains_app, H. apply orb_true_r. Qed.

Lemma contains_cons_r (c x : ascii) (b : string) :
  contains c b = true -> contains c (String x b) = true.
Proof. intros H. simpl. rewrite H. apply orb_true_r. Qed.

End StringEquations.

Module PriorityFacts.
Import PyStr PyStrFacts Re ReSpec ReFacts MatchFacts PatternFacts
  StringEquations Lines.

Lemma search_here (r : regex) (off : nat) (s : string) (st : mstate) :
  mtch r (mkState off s []) Some = Some st -> search r off s = Some (off, st).
Proof. intros H. destruct s; simpl; now rewrite H. Qed.

(** With no equals sign ahead, the optional prefix finds nothing. *)
Lemma eq_prefix_none (k : cont) (o fuel : nat) (s : string)
  (c : list (nat * string)) :
  contains "=" s = false ->
  greedy (mtch Dot) fuel (mkState o s c) (fun st' => mtch (Lit "=") st' k)
  = None.
Proof.
  intros Hs.
  destruct (greedy _ _ _ _) as [r|] eqn:Hg; [exfalso|reflexivity].
  apply (greedy_sound _ _ (proj1 (mtch_adequate Dot))) in Hg.
  destruct Hg as (st' & Hd & Hk). apply dots_inv in Hd.
  destruct Hd as (p & _ & Ha & _ & _). simpl in Ha.
  apply (proj1 (mtch_adequate (Lit "="))) in Hk.
  destruct Hk as (st2 & Hl & _). apply lit_inv in Hl.
  destruct Hl as (Ha' & _ & _). rewrite Ha' in Ha. subst s.
  now rewrite contains_here in Hs.
Qed.

Lemma greedy_S body f st k :
  greedy body (S f) st k
  = match body st (fun st' =>
            if progressed st st' then greedy body f st' k else None) with
    | Some r => Some r
    | None => k st
    end.
Proof. reflexivity. Qed.

Lemma lazy_S body f st k :
  lazy body (S f) st k
  = match k st with
    | Some r => Some r
    | None => body st (fun st' =>
                if progressed st st' then lazy body f st' k else None)
    end.
Proof. reflexivity. Qed.

Lemma mtch_dot_cons o ch t c k :
  Ascii.eqb ch LF = false ->
  mtch Dot (mkState o (String ch t) c) k = k (mkState (S o) t c).
Proof. intros H. simpl. unfold one. simpl. now rewrite H. Qed.

Lemma mtch_lit_cons o ch t c k :
  mtch (Lit ch) (mkState o (String ch t) c) k = k (mkState (S o) t c).
Proof. simpl. unfold one. simpl. now rewrite Ascii.eqb_refl. Qed.

Lemma mtch_lit_other o ch ch' t c k :
  ch' <> ch -> mtch (Lit ch) (mkState o (String ch' t) c) k = None.
Proof.
  intros H. unfold mtch, one. cbn [ahead].
  destruct (Ascii.eqb_spec ch ch') as [E|_]; [now destruct H|reflexivity].
Qed.

Lemma progressed_cons o o' ch t c c' :
  progressed (mkState o (String ch t) c) (mkState o' t c') = true.
Proof. unfold progressed. simpl. apply Nat.ltb_lt. lia. Qed.

(** The prefix runs to the last equals sign when what follows it has none
    and the rest of the pattern matches there. *)
Lemma eq_prefix_last (k : cont) (lhs s : string) (c : list (nat * string))
  (x : mstate) :
  contains LF lhs = false -> contains "=" s = false ->
  forall o fuel,
    String.length lhs + 1 + String.length s <= fuel ->
    k (mkState (o + String.length lhs + 1) s c) = Some x ->
    greedy (mtch Dot) fuel (mkState o (lhs ++ String "=" s) c)
      (fun st' => mtch (Lit "=") st' k)
    = Some x.
Proof.
  intros Hl Hs. induction lhs as [|ch lhs IH]; intros o fuel Hf Hk.
  - destruct fuel as [|f]; [simpl in Hf; lia|].
    rewrite greedy_S. change ("" ++ String "=" s) with (String "=" s).
    rewrite mtch_dot_cons by reflexivity. rewrite progressed_cons.
    rewrite eq_prefix_none by assumption.
    rewrite mtch_lit_cons.
    replace (S o) with (o + String.length "" + 1) by (simpl; lia). exact Hk.
  - simpl in Hl. apply orb_false_elim in Hl. destruct Hl as [Hch Hl].
    destruct fuel as [|f]; [simpl in Hf; lia|].
    rewrite greedy_S.
    change (String ch lhs ++ String "=" s)
      with (String ch (lhs ++ String "=" s)).
    rewrite mtch_dot_cons by assumption. rewrite progressed_cons.
    rewrite (IH Hl (S o) f); [reflexivity| |].
    + simpl in Hf. lia.
    + simpl in Hk. replace (S o + String.length lhs + 1)
        with (o + S (String.length lhs) + 1) by lia.
      exact Hk.
Qed.

(** A pattern behind the optional prefix: on a line made of an assignment
    prefix and a text without equals sign, the match is the match of the
    rest of the pattern on that text. *)
Lemma prefixed_match (core : regex) (assign s : string) (x : mstate) :
  assignment assign -> contains "=" s = false ->
  mtch core (mkState (String.length assign) s []) Some = Some x ->
  mtch (Opt (Star Dot @@ Lit "=") @@ core) (mkState 0 (assign ++ s) []) Some
  = Some x.
Proof.
  intros Ha Hs Hc.
  change (mtch (Opt (Star Dot @@ Lit "=") @@ core)
            (mkState 0 (assign ++ s) []) Some)
    with (match greedy (mtch Dot) (String.length (assign ++ s))
                  (mkState 0 (assign ++ s) [])
                  (fun st' => mtch (Lit "=") st'
                                (fun st1 => mtch core st1 Some)) with
          | Some r => Some r
          | None => mtch core (mkState 0 (assign ++ s) []) Some
          end).
  destruct Ha as [->|(lhs & -> & Hl)].
  - change ("" ++ s) with s. rewrite eq_prefix_none by assumption. exact Hc.
  - rewrite sapp_assoc. change ("=" ++ s) with (String "=" s).
    rewrite (eq_prefix_last _ lhs s [] x Hl Hs 0); [reflexivity| |].
    + rewrite slength_app. simpl. lia.
    + rewrite slength_app in Hc. simpl in Hc. simpl. exact Hc.
Qed.

(** The lazy run of the object pattern stops at the first bracket. *)
Lemma lazy_to_bracket (k : cont) (c : list (nat * string)) (rest : string)
  (r : mstate) :
  (forall o ch t, ch <> "["%char -> k (mkState o (String ch t) c) = None) ->
  forall x o fuel,
    contains "[" x = false -> contains LF x = false ->
    String.length x <= fuel ->
    k (mkState (o + String.length x) (String "[" rest) c) = Some r ->
    lazy (mtch Dot) fuel (mkState o (x ++ String "[" rest) c) k = Some r.
Proof.
  intros Hk x. induction x as [|ch x IH]; intros o fuel Hb Hn Hf Hr.
  - simpl in *. rewrite Nat.add_0_r in Hr.
    destruct fuel; simpl; now rewrite Hr.
  - simpl in Hb, Hn. apply orb_false_elim in Hb. destruct Hb as [Hch Hb].
    apply orb_false_elim in Hn. destruct Hn as [Hcn Hn].
    destruct fuel as [|f]; [simpl in Hf; lia|].
    rewrite lazy_S.
    change (String ch x ++ String "[" rest)
      with (String ch (x ++ String "[" rest)).
    rewrite Hk.
    2:{ intros ->. discriminate. }
    rewrite mtch_dot_cons by assumption. rewrite progressed_cons.
    apply IH; auto.
    + simpl in Hf. lia.
    + simpl in Hr. replace (S o + String.length x)
        with (o + S (String.length x)) by lia.
      exact Hr.
Qed.

End PriorityFacts.

Module RoundTrips.
Import PyStr PyStrFacts Re ReSpec ReFacts MatchFacts PatternFacts
  SplitFacts StringEquations PriorityFacts Lines.

Lemma cat_intro r1 r2 st st1 st2 :
  matches r1 st st1 -> matches r2 st1 st2 -> matches (r1 @@ r2) st st2.
Proof. intros H1 H2. now exists st1. Qed.

Lemma group_intro n r st st1 :
  matches r st st1 ->
  matches (Group n r) st
    (mkState (offset st1) (ahead st1)
       ((n, take (offset st1 - offset st) (ahead st)) :: caps st1)).
Proof. intros H. now exists st1. Qed.

Lemma lit_intro ch o t c :
  matches (Lit ch) (mkState o (String ch t) c) (mkState (S o) t c).
Proof. exists ch, t. simpl. now rewrite Ascii.eqb_refl. Qed.

Lemma take_one (n : nat) (ch : ascii) (t : string) :
  take (S n - n) (String ch t) = str1 ch.
Proof. replace (S n - n) with 1 by lia. reflexivity. Qed.

Lemma prefix_str1 (ch : ascii) (s : string) :
  String.prefix (str1 ch) s = true -> exists t, s = String ch t.
Proof.
  destruct s as [|x s]; simpl; [discriminate|].
  destruct (ascii_dec ch x) as [->|_]; [|discriminate].
  intros _. now exists s.
Qed.

Lemma quote_not_special (q : ascii) :
  In q ["'"; "|"; DQUOTE]%char ->
  q <> LF /\ q <> "["%char /\ q <> "="%char.
Proof.
  intros [<-|[<-|[<-|[]]]]; repeat split; discriminate.
Qed.

(** The item pattern has a match on [base[q item]. *)
Lemma item_core_exists (o : nat) (base item : string) (q : ascii) :
  In q ["'"; "|"; DQUOTE]%char ->
  contains LF base = false -> contains LF item = false ->
  contains q item = false ->
  exists st,
    matches item_core
      (mkState o (base ++ String "[" (String q item)) []) st.
Proof.
  intros Hq Hb Hi Hqi. unfold item_core.
  eexists. eapply cat_intro.
  { apply group_intro. simpl. apply dots_intro. exact Hb. }
  simpl offset. simpl ahead. simpl caps.
  eapply cat_intro; [apply lit_intro|].
  eapply cat_intro.
  { apply group_intro. exists q, item. simpl. split; [reflexivity|].
    split; [|reflexivity].
    destruct Hq as [<-|[<-|[<-|[]]]]; reflexivity. }
  simpl offset. simpl ahead. simpl caps. rewrite take_one.
  eapply cat_intro.
  { split; [|reflexivity]. intros x (mid & Hd & t & Hc & Hp & _).
    apply dots_inv in Hd. destruct Hd as (p & _ & Ha & _ & Hcaps).
    simpl in Ha. rewrite Hcaps in Hc. simpl in Hc.
    inversion Hc; subst t.
    apply prefix_str1 in Hp. destruct Hp as (t & Ht).
    rewrite Ht in Ha. subst item. now rewrite contains_here in Hqi. }
  eapply cat_intro.
  { apply group_intro. simpl.
    rewrite <- (sapp_nil_r item) at 1. apply dots_intro. exact Hi. }
  simpl. auto.
Qed.

Lemma contains_item_line (c : ascii) (base item : string) (q : ascii) :
  contains c (base ++ String "[" (String q item))
  = contains c base || (Ascii.eqb "[" c || (Ascii.eqb q c || contains c item)).
Proof. rewrite contains_app. reflexivity. Qed.

(** On [base[q item] the item pattern has one shape only. *)
Lemma item_shape_unique (base item pre b' i' post : string) (q q' : ascii) :
  base ++ String "[" (String q item)
  = pre ++ b' ++ String "[" (String q' (i' ++ post)) ->
  In q ["'"; "|"; DQUOTE]%char -> In q' ["'"; "|"; DQUOTE]%char ->
  contains "=" base = false -> contains "=" item = false ->
  contains LF base = false -> contains LF item = false ->
  contains "[" item = false ->
  (forall x, In x ["'"; "|"; DQUOTE]%char -> x <> q ->
             contains x base = false) ->
  (pre = "" \/ exists p, pre = p ++ "=" /\ contains LF p = false) ->
  (post = "" \/ post = str1 LF) ->
  contains q' i' = false ->
  b' = base /\ i' = item.
Proof.
  intros E Hq Hq' Hbe Hie Hbn Hin Hib Hbq Hpre Hpost Hq'i.
  destruct (quote_not_special q Hq) as (HqL & HqB & HqE).
  destruct (quote_not_special q' Hq') as (Hq'L & Hq'B & Hq'E).
  assert (Hp : pre = "").
  { destruct Hpre as [->|(p & -> & _)]; [reflexivity|exfalso].
    assert (H : contains "=" (base ++ String "[" (String q item)) = false).
    { rewrite contains_item_line, Hbe, Hie. simpl.
      destruct (Ascii.eqb_spec q "="); [contradiction|reflexivity]. }
    rewrite E, sapp_assoc in H. simpl in H. now rewrite contains_here in H. }
  subst pre. simpl in E.
  assert (Hpo : post = "").
  { destruct Hpost as [-> | ->]; [reflexivity|exfalso].
    assert (H : contains LF (base ++ String "[" (String q item)) = false).
    { rewrite contains_item_line, Hbn, Hin. simpl.
      destruct (Ascii.eqb_spec q LF); [contradiction|reflexivity]. }
    rewrite E in H. revert H. apply eq_true_false_abs.
    apply contains_app_r, contains_cons_r, contains_cons_r, contains_app_r.
    reflexivity. }
  subst post. rewrite sapp_nil_r in E.
  destruct (sapp_eq_cons _ _ _ _ _ E)
    as [[-> E2]|[(m & -> & E2)|(m & -> & E2)]].
  - inversion E2. auto.
  - exfalso.
    assert (H : contains "[" (String q item) = false).
    { simpl. rewrite Hib.
      destruct (Ascii.eqb_spec q "["); [contradiction|reflexivity]. }
    rewrite E2 in H. now rewrite contains_here in H.
  - exfalso. destruct m as [|x m]; simpl in E2; inversion E2; subst.
    + now apply Hq'B.
    + destruct (ascii_dec x q) as [->|Hne].
      * rewrite contains_app in Hq'i. simpl in Hq'i.
        rewrite Ascii.eqb_refl in Hq'i. rewrite !orb_true_r in Hq'i.
        discriminate.
      * specialize (Hbq x Hq' Hne). rewrite contains_app in Hbq.
        simpl in Hbq. rewrite Ascii.eqb_refl in Hbq.
        rewrite !orb_true_r in Hbq. discriminate.
Qed.

Lemma item_core_result (o : nat) (base item : string) (q : ascii) :
  In q ["'"; "|"; DQUOTE]%char ->
  contains "=" base = false -> contains "=" item = false ->
  contains LF base = false -> contains LF item = false ->
  contains "[" item = false -> contains q item = false ->
  (forall x, In x ["'"; "|"; DQUOTE]%char -> x <> q ->
             contains x base = false) ->
  exists st,
    mtch item_core (mkState o (base ++ String "[" (String q item)) []) Some
    = Some st
    /\ caps st = [(3, item); (2, str1 q); (1, base)]
    /\ o < offset st.
Proof.
  intros Hq Hbe Hie Hbn Hin Hib Hqi Hbq.
  destruct (item_core_exists o base item q Hq Hbn Hin Hqi) as (stD & HD).
  destruct (mtch item_core _ Some) as [st|] eqn:Hm.
  - exists st. split; [reflexivity|].
    apply (proj1 (mtch_adequate item_core)) in Hm.
    destruct Hm as (st' & Hm & Heq). inversion Heq; subst st'.
    assert (Hw : matches re_item_match
                   (mkState o (base ++ String "[" (String q item)) []) st).
    { eexists. split; [right; reflexivity|exact Hm]. }
    apply item_match_anatomy in Hw.
    destruct Hw as (pre & b' & q' & i' & E & Hend & Hq' & _ & _ & Hq'i
                    & Hpre & Hc & Ho).
    destruct (item_shape_unique _ _ _ _ _ _ _ _ E Hq Hq' Hbe Hie Hbn Hin
                Hib Hbq Hpre Hend Hq'i) as [-> ->].
    assert (q' = q).
    { destruct Hpre as [->|(p & -> & _)].
      - simpl in E. apply sapp_inv_head in E. now inversion E.
      - exfalso.
        assert (H : contains "=" (base ++ String "[" (String q item)) = false).
        { rewrite contains_item_line, Hbe, Hie. simpl.
          destruct (quote_not_special q Hq) as (_ & _ & HqE).
          destruct (Ascii.eqb_spec q "="); [contradiction|reflexivity]. }
        rewrite E, sapp_assoc in H. simpl in H. now rewrite contains_here in H. }
    subst q'. split; [exact Hc|lia].
  - exfalso. revert Hm.
    apply (proj2 (mtch_adequate item_core) _ _ _ HD). discriminate.
Qed.

(** The attribute pattern has a match on [x[y]z.attr]. *)
Lemma attr_core_exists (o : nat) (c : ascii) (x y z attr : string) :
  contains LF (String c x) = false -> contains LF y = false ->
  contains LF z = false -> all_chars isword attr = true ->
  exists st,
    matches attr_core
      (mkState o (String c (x ++ String "[" (y ++ String "]"
                                (z ++ String "." attr)))) []) st.
Proof.
  intros Hx Hy Hz Ha. simpl in Hx. apply orb_false_elim in Hx.
  destruct Hx as [Hc Hx]. unfold attr_core.
  eexists. eapply cat_intro.
  { apply group_intro.
    eapply cat_intro.
    { eexists. split.
      - exists c. eexists. simpl. split; [reflexivity|].
        split; [now rewrite Hc|reflexivity].
      - apply dots_intro. exact Hx. }
    eapply cat_intro; [apply lit_intro|].
    eapply cat_intro; [simpl; apply dots_intro; exact Hy|].
    eapply cat_intro; [apply lit_intro|].
    simpl. apply dots_intro. exact Hz. }
  simpl offset. simpl ahead. simpl caps.
  eapply cat_intro; [apply lit_intro|].
  eapply cat_intro.
  { apply group_intro. simpl.
    rewrite <- (sapp_nil_r attr) at 1. apply (star_step_intro isword).
    exact Ha. }
  simpl. auto.
Qed.

Lemma isword_special :
  isword LF = false /\ isword "=" = false /\ isword "." = false
  /\ isword "[" = false /\ isword "]" = false.
Proof. repeat split; reflexivity. Qed.

Lemma attr_core_result (o : nat) (x y z attr : string) :
  x <> "" ->
  contains LF x = false -> contains LF y = false -> contains LF z = false ->
  contains "=" x = false -> contains "=" y = false ->
  contains "=" z = false ->
  all_chars isword attr = true ->
  exists st,
    mtch attr_core
      (mkState o ((x ++ String "[" (y ++ String "]" z)) ++ String "." attr) [])
      Some = Some st
    /\ caps st = [(2, attr); (1, x ++ String "[" (y ++ String "]" z))]
    /\ o < offset st.
Proof.
  intros Hx Hxn Hyn Hzn Hxe Hye Hze Ha.
  set (base := x ++ String "[" (y ++ String "]" z)).
  assert (Hbn : contains LF base = false).
  { unfold base. rewrite contains_app. simpl. rewrite contains_app. simpl.
    now rewrite Hxn, Hyn, Hzn. }
  assert (Hbe : contains "=" base = false).
  { unfold base. rewrite contains_app. simpl. rewrite contains_app. simpl.
    now rewrite Hxe, Hye, Hze. }
  destruct isword_special as (HwL & HwE & HwD & _).
  assert (Hline : base ++ String "." attr
                  = x ++ String "[" (y ++ String "]" (z ++ String "." attr))).
  { unfold base. rewrite sapp_assoc. simpl. now rewrite sapp_assoc. }
  destruct x as [|c x]; [contradiction|].
  destruct (attr_core_exists o c x y z attr Hxn Hyn Hzn Ha) as (stD & HD).
  rewrite Hline.
  change (String c x ++ String "[" (y ++ String "]" (z ++ String "." attr)))
    with (String c (x ++ String "[" (y ++ String "]" (z ++ String "." attr)))).
  destruct (mtch attr_core
              (mkState o (String c (x ++ String "[" (y ++ String "]"
                                      (z ++ String "." attr)))) []) Some)
    as [st|] eqn:Hm.
  - exists st. split; [reflexivity|].
    apply (proj1 (mtch_adequate attr_core)) in Hm.
    destruct Hm as (st' & Hm & Heq). inversion Heq; subst st'.
    assert (Hw : matches re_attr_match
                   (mkState o (String c (x ++ String "[" (y ++ String "]"
                                (z ++ String "." attr)))) []) st).
    { eexists. split; [right; reflexivity|exact Hm]. }
    apply attr_match_anatomy in Hw.
    destruct Hw as (pre & x' & y' & z' & a' & E & Hend & _ & _ & _ & _
                    & Ha' & Hpre & Hc & Ho).
    change (String c (x ++ String "[" (y ++ String "]" (z ++ String "." attr))))
      with (String c x ++ String "[" (y ++ String "]" (z ++ String "." attr)))
      in E.
    rewrite <- Hline in E.
    assert (Hpost : ahead st = "").
    { destruct Hend as [H|H]; [exact H|exfalso].
      assert (Hn : contains LF (base ++ String "." attr) = false).
      { rewrite contains_app, Hbn. simpl.
        now rewrite (all_chars_contains isword LF attr Ha HwL). }
      rewrite E, H in Hn. revert Hn. apply eq_true_false_abs.
      apply contains_app_r, contains_app_r, contains_cons_r, contains_app_r.
      reflexivity. }
    rewrite Hpost, sapp_nil_r in E. rewrite <- sapp_assoc in E.
    destruct (split_last_unique _ _ _ _ _ E) as [Eb Ea].
    { now apply (all_chars_contains isword). }
    { now apply (all_chars_contains isword). }
    subst a'.
    assert (Hp : pre = "").
    { destruct Hpre as [->|(p & -> & _)]; [reflexivity|exfalso].
      rewrite Eb, sapp_assoc in Hbe. simpl in Hbe.
      now rewrite contains_here in Hbe. }
    subst pre. simpl in Eb. rewrite <- Eb in Hc. split; [exact Hc|exact Ho].
  - exfalso. revert Hm.
    apply (proj2 (mtch_adequate attr_core) _ _ _ HD). discriminate.
Qed.

(** The object pattern stops at the first bracket. *)
Lemma object_core_result (o : nat) (base rest : string) :
  base <> "" -> contains LF base = false -> contains "[" base = false ->
  mtch object_core (mkState o (base ++ String "[" rest) []) Some
  = Some (mkState (o + String.length base + 1) rest [(1, base)]).
Proof.
  intros Hb Hn Hbr. destruct base as [|c x]; [contradiction|].
  simpl in Hn, Hbr. apply orb_false_elim in Hn. destruct Hn as [Hcn Hn].
  apply orb_false_elim in Hbr. destruct Hbr as [Hcb Hbr].
  change (mtch object_core
            (mkState o (String c x ++ String "[" rest) []) Some)
    with (mtch Dot (mkState o (String c (x ++ String "[" rest)) [])
            (fun sta =>
               lazy (mtch Dot) (String.length (ahead sta)) sta
                 (fun st1 =>
                    mtch (Lit "[")
                      (mkState (offset st1) (ahead st1)
                         ((1, take (offset st1 - o)
                                (String c (x ++ String "[" rest)))
                            :: caps st1)) Some))).
  rewrite mtch_dot_cons by assumption.
  apply lazy_to_bracket; auto.
  - intros o' ch t Hch. cbn [offset ahead caps].
    now apply mtch_lit_other.
  - cbn [ahead]. rewrite slength_app. lia.
  - cbn [offset ahead caps]. rewrite mtch_lit_cons.
    assert (E : S o + String.length x - o = String.length (String c x))
      by (cbn [String.length]; lia).
    rewrite E.
    change (String c (x ++ String "[" rest))
      with (String c x ++ String "[" rest).
    rewrite take_app_length.
    assert (E' : S (S o + String.length x)
                 = o + String.length (String c x) + 1)
      by (cbn [String.length]; lia).
    now rewrite E'.
Qed.

(** What [search] finds on the lines above, assignment prefix included. *)
Lemma item_line_search (assign base item : string) (q : ascii) :
  assignment assign ->
  In q ["'"; "|"; DQUOTE]%char ->
  contains "=" base = false -> contains "=" item = false ->
  contains LF base = false -> contains LF item = false ->
  contains "[" item = false -> contains q item = false ->
  (forall x, In x ["'"; "|"; DQUOTE]%char -> x <> q ->
             contains x base = false) ->
  exists st,
    search re_item_match 0 (assign ++ base ++ String "[" (String q item))
    = Some (0, st)
    /\ caps st = [(3, item); (2, str1 q); (1, base)]
    /\ 0 < offset st.
Proof.
  intros Ha Hq Hbe Hie Hbn Hin Hib Hqi Hbq.
  destruct (item_core_result (String.length assign) base item q
              Hq Hbe Hie Hbn Hin Hib Hqi Hbq) as (st & Hm & Hc & Ho).
  assert (Hs : contains "=" (base ++ String "[" (String q item)) = false).
  { rewrite contains_item_line, Hbe, Hie. simpl.
    destruct (quote_not_special q Hq) as (_ & _ & HqE).
    destruct (Ascii.eqb_spec q "="); [contradiction|reflexivity]. }
  pose proof (prefixed_match item_core assign _ st Ha Hs Hm) as Hw.
  change (Opt (Star Dot @@ Lit "=") @@ item_core) with re_item_match in Hw.
  apply search_here in Hw. exists st. repeat split; auto. lia.
Qed.

Lemma attr_line_search (assign x y z attr : string) :
  assignment assign ->
  x <> "" ->
  contains LF x = false -> contains LF y = false -> contains LF z = false ->
  contains "=" x = false -> contains "=" y = false ->
  contains "=" z = false ->
  all_chars isword attr = true ->
  exists st,
    search re_attr_match 0
      (assign ++ (x ++ String "[" (y ++ String "]" z)) ++ String "." attr)
    = Some (0, st)
    /\ caps st = [(2, attr); (1, x ++ String "[" (y ++ String "]" z))]
    /\ 0 < offset st.
Proof.
  intros Has Hx Hxn Hyn Hzn Hxe Hye Hze Ha.
  destruct (attr_core_result (String.length assign) x y z attr
              Hx Hxn Hyn Hzn Hxe Hye Hze Ha) as (st & Hm & Hc & Ho).
  destruct isword_special as (_ & HwE & _).
  assert (Hs : contains "=" ((x ++ String "[" (y ++ String "]" z))
                               ++ String "." attr) = false).
  { rewrite !contains_app. simpl. rewrite contains_app. simpl.
    rewrite Hxe, Hye, Hze. simpl.
    now apply (all_chars_contains isword). }
  pose proof (prefixed_match attr_core assign _ st Has Hs Hm) as Hw.
  change (Opt (Star Dot @@ Lit "=") @@ attr_core) with re_attr_match in Hw.
  apply search_here in Hw. exists st. repeat split; auto. lia.
Qed.

Lemma object_line_search (assign base rest : string) :
  assignment assign ->
  base <> "" ->
  contains LF base = false -> contains "[" base = false ->
  contains "=" base = false -> contains "=" rest = false ->
  search re_object_match 0 (assign ++ base ++ String "[" rest)
  = Some (0, mkState (String.length assign + String.length base + 1) rest
                [(1, base)]).
Proof.
  intros Ha Hb Hn Hbr Hbe Hre.
  pose proof (object_core_result (String.length assign) base rest Hb Hn Hbr)
    as Hm.
  assert (Hs : contains "=" (base ++ String "[" rest) = false).
  { rewrite contains_app. simpl. now rewrite Hbe, Hre. }
  pose proof (prefixed_match object_core assign _ _ Ha Hs Hm) as Hw.
  change (Opt (Star Dot @@ Lit "=") @@ object_core) with re_object_match
    in Hw.
  now apply search_here in Hw.
Qed.

(** The splits of the module on such lines. *)
Lemma item_split_of_search (l base item qs : string) (st : mstate) :
  search re_item_match 0 l = Some (0, st) ->
  caps st = [(3, item); (2, qs); (1, base)] -> 0 < offset st ->
  item_split l = Ok (base, item).
Proof.
  intros Hw Hc Ho. unfold item_split.
  rewrite (split_first_match _ _ _ _ Hw) by lia.
  change (ngroups re_item_match) with 3.
  unfold groups. rewrite Hc. reflexivity.
Qed.

Lemma attr_split_of_search (l base attr : string) (st : mstate) :
  search re_attr_match 0 l = Some (0, st) ->
  caps st = [(2, attr); (1, base)] -> 0 < offset st ->
  attr_split l = Ok (base, attr).
Proof.
  intros Hw Hc Ho. unfold attr_split.
  rewrite (split_first_match _ _ _ _ Hw) by lia.
  change (ngroups re_attr_match) with 2.
  unfold groups. rewrite Hc. reflexivity.
Qed.

Lemma object_base_of_search (l base : string) (st : mstate) :
  search re_object_match 0 l = Some (0, st) ->
  caps st = [(1, base)] -> 0 < offset st ->
  object_base l = Ok base.
Proof.
  intros Hw Hc Ho. unfold object_base.
  rewrite (split_first_match _ _ _ _ Hw) by lia.
  change (ngroups re_object_match) with 1.
  unfold groups. rewrite Hc. reflexivity.
Qed.

End RoundTrips.

Module WorldFacts.
Import PyStr Lines.

Lemma keeps_refl (k : nat) (w : World) : keeps_world k w w.
Proof.
  repeat split; auto. exists []. rewrite app_nil_r. simpl.
  repeat split; auto. lia. intros x [].
Qed.

Lemma keeps_trans (a b : nat) (w w1 w2 : World) :
  keeps_world a w w1 -> keeps_world b w1 w2 -> keeps_world (a + b) w w2.
Proof.
  intros (Hh & Hw & Hr & l & He & Hl & Hp) (Hh' & Hw' & Hr' & l' & He' & Hl' & Hp').
  split; [congruence|]. split; [congruence|]. split; [tauto|].
  exists (l ++ l')%list. rewrite He', He, app_assoc, length_app.
  repeat split; auto; [lia|].
  intros x Hx. apply in_app_or in Hx. destruct Hx; auto.
Qed.

Lemma keeps_delims (k : nat) (w w1 : World) (d : string) :
  keeps_world k w w1 -> readline w1 <> None ->
  keeps_world k w (with_delims d w1).
Proof.
  intros (Hh & Hw & Hr & Hl) Hn. unfold with_delims.
  repeat split; simpl; auto; try discriminate.
  intros H. exfalso. apply Hn. tauto.
Qed.

Lemma keeps_more (a b : nat) (w w' : World) :
  a <= b -> keeps_world a w w' -> keeps_world b w w'.
Proof.
  intros Hab (Hh & Hw & Hr & l & He & Hl & Hp).
  repeat split; auto; try tauto. exists l. repeat split; auto. lia.
Qed.

Lemma retrieve_obj_keeps (name : string) (context : Context) (w w' : World)
  (r : result PyObj) :
  _retrieve_obj name context w = (r, w') -> keeps_world 2 w w'.
Proof.
  unfold _retrieve_obj. destruct (contains "(" name) eqn:Hp.
  - intros H. inversion H; subst. apply keeps_refl.
  - run_py.
    assert (H1 : forall x, In x [name] -> contains "(" x = false)
      by (intros x [<-|[]]; exact Hp).
    assert (H2 : forall x, In x [name; name] -> contains "(" x = false)
      by (intros x [<-|[<-|[]]]; exact Hp).
    destruct (shell_user_ns context) as [ns1|] eqn:Hs; simpl;
      [destruct (ns1 name) as [o|e] eqn:Hn; [|destruct e]|]; simpl;
      try (destruct (user_ns context) as [ns2|]; simpl);
      intros H; inversion H; subst; try apply keeps_refl;
      repeat split; simpl; auto;
      try (exists [name]; simpl; repeat split; auto; lia).
    exists [name; name]. rewrite <- app_assoc. simpl. repeat split; auto.
Qed.

Lemma item_completer_keeps (context : Context) (command : string)
  (w w' : World) (r : result (list string)) :
  h5py_item_completer context command w = (r, w') -> keeps_world 2 w w'.
Proof.
  intros H. destruct (item_split command) as [[base item]|e] eqn:Hs.
  - rewrite (h5py_item_completer_eq _ _ _ _ _ Hs) in H.
    destruct (_retrieve_obj base context w) as [[obj|e] w1] eqn:Hr;
      apply retrieve_obj_keeps in Hr.
    + destruct (item_candidates obj (fst (posixpath.split item)))
        as [items|[]]; try (inversion H; subst; exact Hr).
      destruct (readline w1) eqn:Hrl; inversion H; subst; [|exact Hr].
      apply keeps_delims; [exact Hr|congruence].
    + inversion H; subst. exact Hr.
  - rewrite (h5py_item_completer_nomatch _ _ _ _ Hs) in H.
    inversion H; subst. apply keeps_refl.
Qed.

Lemma attr_completer_keeps ip generic (context : Context) (command : string)
  (w w' : World) (r : result (list string)) :
  h5py_attr_completer ip generic context command w = (r, w') ->
  keeps_world 2 w w'.
Proof.
  intros H. destruct (attr_split command) as [[base attr]|e] eqn:Hs.
  - rewrite (h5py_attr_completer_eq _ _ _ _ _ _ _ Hs) in H.
    destruct (_retrieve_obj (strip base) context w) as [[obj|e] w1] eqn:Hr;
      apply retrieve_obj_keeps in Hr.
    + destruct (attr_listing generic obj) as [attrs|e];
        [|inversion H; subst; exact Hr].
      destruct (readline w1) eqn:Hrl; inversion H; subst; [|exact Hr].
      apply keeps_delims; [exact Hr|congruence].
    + inversion H; subst. exact Hr.
  - rewrite (h5py_attr_completer_nomatch _ _ _ _ _ _ Hs) in H.
    inversion H; subst. apply keeps_refl.
Qed.

Lemma hook_keeps ip generic (self : Context) (event : Event)
  (w w' : World) (r : result (list string)) :
  h5py_completer ip generic self event w = (r, w') -> keeps_world 4 w w'.
Proof.
  intros H. destruct (object_base (line event)) as [base|e] eqn:Hb.
  - rewrite (h5py_completer_eq _ _ _ _ _ _ Hb) in H.
    destruct (negb (isinstance_h5 (_ofind self base)));
      [inversion H; subst; apply keeps_refl|].
    destruct (h5py_attr_completer ip generic self (line event) w)
      as [ra w1] eqn:Ha.
    apply attr_completer_keeps in Ha.
    assert (Ha4 : keeps_world 4 w w1) by (apply (keeps_more 2); [lia|exact Ha]).
    destruct ra as [l|e]; [inversion H; subst; exact Ha4|].
    destruct e; try (inversion H; subst; exact Ha4).
    destruct (h5py_item_completer self (line event) w1) as [ri w2] eqn:Hi.
    apply item_completer_keeps in Hi.
    pose proof (keeps_trans _ _ _ _ _ Ha Hi) as Hk.
    destruct ri as [l|e]; [inversion H; subst; exact Hk|].
    destruct e; inversion H; subst; exact Hk.
  - unfold h5py_completer in H. run_py. rewrite Hb in H.
    inversion H; subst. apply keeps_refl.
Qed.

End WorldFacts.

Module PathFacts.
Import PyStr PyStrFacts MatchFacts StringEquations Lines.

Lemma rev_onto_app (s acc : string) : rev_onto s acc = rev s ++ acc.
Proof.
  unfold rev. revert acc. induction s as [|x s IH]; intros acc; simpl.
  - reflexivity.
  - rewrite (IH (String x acc)), (IH (String x "")), sapp_assoc.
    reflexivity.
Qed.

Lemma rev_cons (x : ascii) (s : string) : rev (String x s) = rev s ++ str1 x.
Proof. unfold rev at 1. simpl. apply rev_onto_app. Qed.

Lemma rev_app (a b : string) : rev (a ++ b) = rev b ++ rev a.
Proof.
  induction a as [|x a IH]; simpl.
  - now rewrite sapp_nil_r.
  - now rewrite !rev_cons, IH, sapp_assoc.
Qed.

Lemma rev_rev (s : string) : rev (rev s) = s.
Proof.
  induction s as [|x s IH]; [reflexivity|].
  now rewrite rev_cons, rev_app, IH.
Qed.

(** The first character of the reversed text is the last of the text. *)
Lemma rev_head (c : ascii) (s : string) :
  s <> "" ->
  exists l t, rev s = String l t /\ endswith_chr c s = Ascii.eqb l c.
Proof.
  induction s as [|x s IH]; [contradiction|]. intros _.
  destruct s as [|y s].
  - exists x, "". split; reflexivity.
  - destruct IH as (l & t & Hr & He); [discriminate|].
    exists l, (t ++ str1 x). split.
    + now rewrite rev_cons, Hr.
    + exact He.
Qed.

Lemma rstrip_slash (s : string) :
  s <> "" -> endswith_chr "/" s = false ->
  rstrip_by (Ascii.eqb "/"%char) (s ++ "/") = s.
Proof.
  intros Hs He. unfold rstrip_by. rewrite rev_app.
  change (rev "/" ++ rev s) with (String "/" (rev s)).
  destruct (rev_head "/" s Hs) as (l & t & Hr & Hl).
  rewrite He in Hl. cbn [lstrip_by]. rewrite Ascii.eqb_refl, Hr.
  cbn [lstrip_by]. rewrite (Ascii.eqb_sym "/" l), <- Hl.
  now rewrite <- Hr, rev_rev.
Qed.

Lemma take_app_cons (a b : string) (c : ascii) :
  take (S (String.length a)) (a ++ String c b) = a ++ str1 c.
Proof.
  induction a as [|x a IH]; simpl; [now destruct b|].
  simpl in IH. now rewrite IH.
Qed.

Lemma drop_app_cons (a b : string) (c : ascii) :
  drop (S (String.length a)) (a ++ String c b) = b.
Proof.
  induction a as [|x a IH]; simpl; [now destruct b|exact IH].
Qed.

Lemma all_chars_endswith (c : ascii) (s : string) :
  all_chars (Ascii.eqb c) s = true -> s <> "" -> endswith_chr c s = true.
Proof.
  induction s as [|x s IH]; [contradiction|]. intros H _.
  simpl in H. apply andb_prop in H. destruct H as [Hx Hs].
  destruct s as [|y s].
  - simpl. now rewrite Ascii.eqb_sym.
  - apply IH; [exact Hs|discriminate].
Qed.

Lemma all_chars_repeat_chr (c : ascii) (n : nat) :
  all_chars (Ascii.eqb c) (repeat_chr c n) = true.
Proof.
  induction n as [|n IH]; simpl; [reflexivity|].
  now rewrite Ascii.eqb_refl, IH.
Qed.

(** [posixpath.split] undoes the joining of a path and a leaf. *)
Lemma split_of_joined (path leaf : string) :
  path <> "" -> endswith_chr "/" path = false -> contains "/" leaf = false ->
  posixpath.split (path ++ String "/" leaf) = (path, leaf).
Proof.
  intros Hp He Hl. unfold posixpath.split.
  rewrite (rfind_succ_app_free "/" path leaf Hl).
  rewrite take_app_cons, drop_app_cons.
  assert (H1 : String.eqb (path ++ str1 "/") "" = false).
  { apply String.eqb_neq. destruct path; discriminate. }
  assert (H2 : String.eqb (path ++ str1 "/")
                 (repeat_chr "/" (String.length (path ++ str1 "/"))) = false).
  { apply String.eqb_neq. intros E.
    pose proof (all_chars_repeat_chr "/" (String.length (path ++ str1 "/")))
      as Ha.
    rewrite <- E, all_chars_app in Ha. apply andb_prop in Ha.
    destruct Ha as [Ha _].
    rewrite (all_chars_endswith _ _ Ha Hp) in He. discriminate. }
  rewrite H1, H2. simpl. now rewrite rstrip_slash.
Qed.

Lemma join_normal (path name : string) :
  path <> "" -> endswith_chr "/" path = false ->
  startswith "/" name = false ->
  posixpath.join path name = path ++ String "/" name.
Proof.
  intros Hp He Hn. unfold posixpath.join. rewrite Hn, He.
  destruct (String.eqb_spec path "") as [E|_]; [contradiction|].
  reflexivity.
Qed.

Lemma prefix_app_cancel (a b c : string) :
  String.prefix (a ++ b) (a ++ c) = String.prefix b c.
Proof.
  induction a as [|x a IH]; simpl; [reflexivity|].
  destruct (ascii_dec x x) as [_|H]; [exact IH|contradiction].
Qed.

Lemma slice_eq_app_cancel (a b c : string) :
  slice_eq (a ++ b) (a ++ c) = slice_eq b c.
Proof. rewrite !slice_eq_prefix. apply prefix_app_cancel. Qed.

(** Filtering the joined names by the token is filtering the names by the
    leaf. *)
Lemma filter_joined (path leaf : string) (names : list string) :
  path <> "" -> endswith_chr "/" path = false ->
  Forall (fun n => startswith "/" n = false) names ->
  filter (fun i => slice_eq (path ++ String "/" leaf) i)
    (map (fun name => posixpath.join path name) names)
  = map (fun n => path ++ String "/" n)
      (filter (fun n => slice_eq leaf n) names).
Proof.
  intros Hp He Hn. induction Hn as [|n names Hn _ IH]; [reflexivity|].
  simpl. rewrite (join_normal _ _ Hp He Hn), IH.
  change (path ++ String "/" leaf) with (path ++ str1 "/" ++ leaf).
  change (path ++ String "/" n) with (path ++ str1 "/" ++ n).
  rewrite <- !sapp_assoc, slice_eq_app_cancel.
  destruct (slice_eq leaf n); simpl; rewrite ?sapp_assoc; reflexivity.
Qed.

End PathFacts.

Module LineFacts.
Import PyStr PyStrFacts MatchFacts StringEquations SplitFacts Lines.

Lemma lacks_in (cs : list ascii) (s : string) (c : ascii) :
  lacks cs s = true -> In c cs -> contains c s = false.
Proof.
  unfold lacks. intros H Hin. rewrite forallb_forall in H.
  apply negb_true_iff. now apply H.
Qed.

Lemma retrieve_obj_evaluates (context : Context) (name : string)
  (obj : PyObj) (w : World) :
  evaluates context name obj -> contains "(" name = false ->
  _retrieve_obj name context w = (Ok obj, logged name w).
Proof.
  intros He Hp. unfold _retrieve_obj. rewrite Hp. run_py.
  destruct He as [(ns & -> & Hn)|(-> & ns & -> & Hn)]; simpl;
    now rewrite Hn.
Qed.

(** A cut at [c] and a cut at [c'] of the same text. *)
Lemma sapp_eq_cons2 (c c' : ascii) (a b a' b' : string) :
  a ++ String c b = a' ++ String c' b' ->
  (a = a' /\ c = c' /\ b = b')
  \/ (exists m, a' = a ++ String c m /\ b = m ++ String c' b')
  \/ (exists m, a = a' ++ String c' m /\ b' = m ++ String c b).
Proof.
  revert a'. induction a as [|x a IH]; intros [|y a'] H; simpl in H.
  - inversion H. now left.
  - inversion H; subst. right. left. now exists a'.
  - inversion H; subst. right. right. now exists a.
  - inversion H; subst.
    destruct (IH _ H2) as [(-> & -> & ->)|[(m & -> & ->)|(m & -> & ->)]].
    + now left.
    + right. left. now exists m.
    + right. right. now exists m.
Qed.

(** A line that ends in an open subscript whose token has no dot is no
    line for the attribute pattern. *)
Lemma open_subscript_no_attr (front item : string) (q : ascii) :
  In q quotes -> contains "." item = false -> contains LF item = false ->
  attr_split (front ++ String "[" (String q item)) = Raise ValueError.
Proof.
  intros Hq Hd Hn.
  destruct (attr_split _) as [[b a]|e] eqn:H;
    [exfalso|now rewrite (unpack2_raises _ _ H)].
  apply attr_split_inv in H.
  destruct H as (pre0 & pre & post & x & y & z & E & _ & Hpost & _ & _ & _
                 & _ & Ha & _).
  rewrite <- !sapp_assoc in E.
  destruct (sapp_eq_cons2 _ _ _ _ _ _ E)
    as [(_ & Hc & _)|[(m & _ & E2)|(m & _ & E2)]].
  - discriminate.
  - (* the dot would stand in the quote or in the token *)
    assert (Hm : contains "." (String q item) = true).
    { rewrite E2. apply contains_here. }
    simpl in Hm. rewrite Hd in Hm.
    destruct Hq as [<-|[<-|[<-|[]]]]; discriminate.
  - (* the bracket would stand in the word or after it *)
    assert (Hw : contains "[" (a ++ post) = false).
    { rewrite contains_app.
      rewrite (all_chars_contains Re.isword "[" a Ha eq_refl).
      destruct Hpost as [-> | ->]; reflexivity. }
    assert (Hm : contains "[" (a ++ post) = true).
    { rewrite E2. apply contains_here. }
    congruence.
Qed.

End LineFacts.

Module OmitFacts.
Import PyStr PyStrFacts MatchFacts Lines.

Lemma omit_filter_level (o : option Z) (attrs : list string) :
  omit_filter o attrs = filter (listed_at (omit_level o)) attrs.
Proof.
  assert (Hall : filter (fun _ : string => true) attrs = attrs).
  { induction attrs as [|a attrs IH]; simpl; [reflexivity|now rewrite IH]. }
  destruct o as [[|[p|[p|p|]|]|p]|]; simpl; now rewrite ?Hall.
Qed.

(** A name hidden at a level is hidden at every higher level. *)
Lemma listed_at_mono (m n : nat) (a : string) :
  m <= n -> listed_at n a = true -> listed_at m a = true.
Proof.
  intros Hmn H.
  destruct m as [|[|m]]; [reflexivity| |].
  - destruct n as [|[|n]]; [lia|exact H|].
    change (negb (String.prefix "_" a) = true) in H.
    change (negb (String.prefix "__" a) = true).
    destruct a as [|x a]; [reflexivity|].
    cbn [String.prefix] in H |- *.
    destruct (ascii_dec "_" x) as [_|_]; [|reflexivity].
    destruct a; discriminate.
  - destruct n as [|[|n]]; [lia|lia|exact H].
Qed.

Lemma filter_level_mono (m n : nat) (attrs : list string) :
  m <= n ->
  filter (listed_at n) attrs = filter (listed_at n) (filter (listed_at m) attrs).
Proof.
  intros Hmn. induction attrs as [|a attrs IH]; simpl; [reflexivity|].
  destruct (listed_at n a) eqn:Hn.
  - rewrite (listed_at_mono m n a Hmn Hn). simpl. now rewrite Hn, IH.
  - destruct (listed_at m a); simpl; now rewrite ?Hn, IH.
Qed.

Lemma filter_comm {A} (p q : A -> bool) (l : list A) :
  filter p (filter q l) = filter q (filter p l).
Proof.
  induction l as [|a l IH]; simpl; [reflexivity|].
  destruct (p a) eqn:Hp, (q a) eqn:Hq; simpl; now rewrite ?Hp, ?Hq, IH.
Qed.

(** Filtering before the names are prefixed is filtering after it. *)
Lemma filter_prefixed (p : string -> bool) (b : string) (l : list string) :
  map (fun a => b ++ a) (filter p l)
  = filter (fun c => p (drop (String.length b) c)) (map (fun a => b ++ a) l).
Proof.
  induction l as [|a l IH]; simpl; [reflexivity|].
  rewrite drop_app_length. destruct (p a); simpl; now rewrite IH.
Qed.

End OmitFacts.

(** * More properties of the completers *)

(** ** The lines the patterns accept *)

Section PatternAnatomy.
Import PyStr PyStrFacts Re ReSpec ReFacts MatchFacts PatternFacts
  SplitFacts Lines.

(** X1.  What the item pattern accepts.  When [item_split] yields a base
    and an item token, the line is some text, the base, an opening
    bracket, one of the three quote characters and the token, up to an
    optional final newline; the quote is not closed (the token does not
    hold that quote character), and neither base nor token holds a
    newline. *)
Theorem item_split_anatomy (command base item : string) :
  item_split command = Ok (base, item) ->
  exists pre q post,
    command = pre ++ base ++ String "[" (String q (item ++ post))
    /\ In q ["'"; "|"; DQUOTE]%char
    /\ contains q item = false
    /\ contains LF base = false /\ contains LF item = false
    /\ (post = "" \/ post = str1 LF).
Proof.
  intros H. apply item_split_inv in H.
  destruct H as (pre0 & pre & q & post & -> & Hpost & Hq & Hb & Hi & Hqi & _).
  exists (pre0 ++ pre), q, post. rewrite sapp_assoc. auto 10.
Qed.

(** X2.  What the attribute pattern accepts.  When [attr_split] yields a
    base and an attribute token, the line is some text, the base, a dot and
    the token, up to an optional final newline; the token is made of word
    characters only (so it holds no dot), and the base has no newline and
    holds an opening bracket after at least one character and a closing
    bracket after it. *)
Theorem attr_split_anatomy (command base attr : string) :
  attr_split command = Ok (base, attr) ->
  exists pre post x y z,
    command = pre ++ base ++ String "." (attr ++ post)
    /\ base = x ++ String "[" (y ++ String "]" z)
    /\ x <> ""
    /\ contains LF base = false
    /\ all_chars isword attr = true
    /\ contains "." attr = false
    /\ (post = "" \/ post = str1 LF).
Proof.
  intros H. apply attr_split_inv in H.
  destruct H as (pre0 & pre & post & x & y & z & -> & -> & Hpost & Hx
                 & Hxn & Hyn & Hzn & Ha & _).
  exists (pre0 ++ pre), post, x, y, z.
  assert (Hb : contains LF (x ++ String "[" (y ++ String "]" z)) = false).
  { rewrite contains_app. simpl. rewrite contains_app. simpl.
    now rewrite Hxn, Hyn, Hzn. }
  assert (Hd : contains "." attr = false)
    by (now apply (all_chars_contains isword)).
  split; [now rewrite (sapp_assoc pre0 pre)|].
  repeat (split; [solve [auto]|]). exact Hpost.
Qed.

(** X3.  What the object pattern accepts.  When [object_base] yields a base
    expression, the line holds it right before an opening bracket; it is
    not empty and has no newline. *)
Theorem object_base_anatomy (l base : string) :
  object_base l = Ok base ->
  exists pre post,
    l = pre ++ base ++ String "[" post
    /\ base <> "" /\ contains LF base = false.
Proof.
  intros H. apply object_base_inv in H.
  destruct H as (pre0 & pre & post & -> & Hb & Hn & _).
  exists (pre0 ++ pre), post. rewrite sapp_assoc. auto.
Qed.

End PatternAnatomy.

(** ** The lines the patterns recognise *)

Section PatternRoundTrips.
Import PyStr PyStrFacts Re ReSpec ReFacts MatchFacts PatternFacts
  SplitFacts StringEquations PriorityFacts RoundTrips Lines.

(** X4.  The item pattern recognises an open subscript.  On a line made of
    an optional assignment prefix, a base expression, an opening bracket,
    a quote character and a token with no closing quote, [item_split]
    yields exactly the base and the token, provided neither holds a
    newline or an equals sign, the token holds no opening bracket and the
    base holds no quote character other than the one opened. *)
Theorem item_split_round_trip (assign base item : string) (q : ascii) :
  assignment assign ->
  In q ["'"; "|"; DQUOTE]%char ->
  contains "=" base = false -> contains "=" item = false ->
  contains LF base = false -> contains LF item = false ->
  contains "[" item = false -> contains q item = false ->
  (forall x, In x ["'"; "|"; DQUOTE]%char -> x <> q ->
             contains x base = false) ->
  item_split (assign ++ base ++ String "[" (String q item))
  = Ok (base, item).
Proof.
  intros Ha Hq Hbe Hie Hbn Hin Hib Hqi Hbq.
  destruct (item_line_search assign base item q
              Ha Hq Hbe Hie Hbn Hin Hib Hqi Hbq) as (st & Hw & Hc & Ho).
  exact (item_split_of_search _ _ _ _ _ Hw Hc Ho).
Qed.

(** X5.  The attribute pattern recognises an attribute of a subscripted
    expression.  On a line made of an optional assignment prefix, a base
    [x[y]z] with [x] not empty, a dot and a token of word characters,
    [attr_split] yields exactly the base and the token, provided the base
    holds no newline and no equals sign. *)
Theorem attr_split_round_trip (assign x y z attr : string) :
  assignment assign ->
  x <> "" ->
  contains LF x = false -> contains LF y = false -> contains LF z = false ->
  contains "=" x = false -> contains "=" y = false ->
  contains "=" z = false ->
  all_chars isword attr = true ->
  attr_split (assign ++ (x ++ String "[" (y ++ String "]" z))
                     ++ String "." attr)
  = Ok (x ++ String "[" (y ++ String "]" z), attr).
Proof.
  intros Has Hx Hxn Hyn Hzn Hxe Hye Hze Ha.
  destruct (attr_line_search assign x y z attr
              Has Hx Hxn Hyn Hzn Hxe Hye Hze Ha) as (st & Hw & Hc & Ho).
  exact (attr_split_of_search _ _ _ _ Hw Hc Ho).
Qed.

(** X6.  The object pattern yields the expression before the first
    bracket.  On a line made of an optional assignment prefix, a base
    expression that is not empty and holds no bracket, newline or equals
    sign, an opening bracket and any text without equals sign,
    [object_base] yields exactly the base. *)
Theorem object_base_round_trip (assign base rest : string) :
  assignment assign ->
  base <> "" ->
  contains LF base = false -> contains "[" base = false ->
  contains "=" base = false -> contains "=" rest = false ->
  object_base (assign ++ base ++ String "[" rest) = Ok base.
Proof.
  intros Ha Hb Hn Hbr Hbe Hre.
  pose proof (object_line_search assign base rest Ha Hb Hn Hbr Hbe Hre) as Hw.
  apply (object_base_of_search _ _ _ Hw); [reflexivity|simpl; lia].
Qed.

End PatternRoundTrips.

(** ** Edges of the completers *)

Section CompleterEdges.
Import PyStr PyStrFacts Re MatchFacts SplitFacts StringEquations Lines.

Variable ip : IPython.
Variable generic : PyObj -> list string -> result (list string).

Lemma no_bracket_no_match (l : string) :
  contains "[" l = false ->
  object_base l = Raise IndexError
  /\ item_split l = Raise ValueError /\ attr_split l = Raise ValueError.
Proof.
  intros Hl. split; [|split].
  - destruct (object_base l) as [b|e] eqn:H.
    + exfalso. apply object_base_inv in H.
      destruct H as (pre0 & pre & post & E & _). rewrite E in Hl.
      revert Hl. apply eq_true_false_abs.
      apply contains_app_r, contains_app_r, contains_here.
    + now rewrite (index_raises _ _ _ H).
  - destruct (item_split l) as [[b i]|e] eqn:H.
    + exfalso. apply item_split_inv in H.
      destruct H as (pre0 & pre & q & post & E & _). rewrite E in Hl.
      revert Hl. apply eq_true_false_abs.
      apply contains_app_r, contains_app_r, contains_here.
    + now rewrite (unpack2_raises _ _ H).
  - destruct (attr_split l) as [[b a]|e] eqn:H.
    + exfalso. apply attr_split_inv in H.
      destruct H as (pre0 & pre & post & x & y & z & E & -> & _).
      rewrite E in Hl. revert Hl. apply eq_true_false_abs.
      apply contains_app_r, contains_app_r. rewrite contains_app.
      now rewrite contains_here.
    + now rewrite (unpack2_raises _ _ H).
Qed.

(** X7.  A line without an opening bracket is no line for the module: the
    hook raises [IndexError] (line 175), each completer called on its own
    raises [ValueError] (lines 105 and 131), and in all three cases the
    world is left as it was. *)
Theorem no_bracket_line (self : Context) (event : Event) (w : World) :
  contains "[" (line event) = false ->
  h5py_completer ip generic self event w = (Raise IndexError, w)
  /\ h5py_item_completer self (line event) w = (Raise ValueError, w)
  /\ h5py_attr_completer ip generic self (line event) w
     = (Raise ValueError, w).
Proof.
  intros Hl. destruct (no_bracket_no_match _ Hl) as (Ho & Hi & Ha).
  split; [|split].
  - unfold h5py_completer. run_py. now rewrite Ho.
  - now apply h5py_item_completer_nomatch with ValueError.
  - now apply h5py_attr_completer_nomatch with ValueError.
Qed.

(** X8.  A subscript that is no open string (an integer, a slice, a
    name) gets no completions: on a line with a base expression, none of
    the three quote characters and no dot, the hook returns the empty list
    for an h5py object, evaluates nothing and leaves the world as it was,
    readline or not. *)
Theorem plain_subscript_no_completions
  (self : Context) (event : Event) (base : string) (w : World) :
  object_base (line event) = Ok base ->
  isinstance_h5 (_ofind self base) = true ->
  (forall q, In q ["'"; "|"; DQUOTE]%char -> contains q (line event) = false) ->
  contains "." (line event) = false ->
  h5py_completer ip generic self event w = (Ok [], w).
Proof.
  intros Hb Hinst Hq Hd.
  rewrite (h5py_completer_eq _ _ _ _ _ _ Hb), Hinst. simpl.
  assert (Ha : attr_split (line event) = Raise ValueError).
  { destruct (attr_split (line event)) as [[b a]|e] eqn:H.
    - exfalso. apply attr_split_inv in H.
      destruct H as (pre0 & pre & post & x & y & z & E & _).
      rewrite E in Hd. revert Hd. apply eq_true_false_abs.
      apply contains_app_r, contains_app_r, contains_here.
    - now rewrite (unpack2_raises _ _ H). }
  assert (Hi : item_split (line event) = Raise ValueError).
  { destruct (item_split (line event)) as [[b i]|e] eqn:H.
    - exfalso. apply item_split_inv in H.
      destruct H as (pre0 & pre & q & post & E & _ & Hin & _).
      specialize (Hq q Hin). rewrite E in Hq. revert Hq.
      apply eq_true_false_abs.
      apply contains_app_r, contains_app_r, contains_app_r, contains_cons_r.
      simpl. now rewrite Ascii.eqb_refl.
    - now rewrite (unpack2_raises _ _ H). }
  rewrite (h5py_attr_completer_nomatch _ _ _ _ _ _ Ha).
  now rewrite (h5py_item_completer_nomatch _ _ _ _ Hi).
Qed.

(** X9.  [_retrieve_obj] evaluates nothing but its argument, at most
    twice, and twice only when the shell namespace answered
    [AttributeError]; an argument with a parenthesis is not evaluated at
    all.  Readline, hooks and warnings are not touched. *)
Theorem retrieve_obj_evaluations
  (name : string) (context : Context) (w w' : World) (r : result PyObj) :
  _retrieve_obj name context w = (r, w') ->
  readline w' = readline w /\ hooks w' = hooks w /\ warnings w' = warnings w
  /\ exists n,
       n <= 2
       /\ evaluated w' = (evaluated w ++ repeat name n)%list
       /\ (contains "(" name = true -> n = 0)
       /\ (n = 2 -> exists ns, shell_user_ns context = Some ns
                               /\ ns name = Raise AttributeError).
Proof.
  unfold _retrieve_obj. destruct (contains "(" name) eqn:Hp.
  - intros H. inversion H; subst. repeat split.
    exists 0. simpl. rewrite app_nil_r. repeat split; auto. discriminate.
  - run_py.
    destruct (shell_user_ns context) as [ns1|] eqn:Hs; simpl;
      [destruct (ns1 name) as [o|e] eqn:Hn; [|destruct e]|]; simpl;
      try (destruct (user_ns context) as [ns2|]; simpl);
      intros H; inversion H; subst; simpl; repeat split;
      try (exists 1; simpl; repeat split; auto; discriminate);
      try (exists 0; simpl; rewrite app_nil_r; repeat split; auto;
           discriminate).
    exists 2. rewrite <- app_assoc. simpl. repeat split; auto.
    + discriminate.
    + intros _. now exists ns1.
Qed.

End CompleterEdges.

(** ** What a completion leaves behind *)

Section CompletionEffects.
Import PyStr PyStrFacts WorldFacts Lines.

Variable ip : IPython.
Variable generic : PyObj -> list string -> result (list string).

(** X10.  Whatever the line and whatever the outcome, a call of the hook
    sets no hook and issues no warning, neither loads nor unloads
    readline, and evaluates at most four expressions, none of which holds
    a parenthesis. *)
Theorem hook_effects (self : Context) (event : Event) (w w' : World)
  (r : result (list string)) :
  h5py_completer ip generic self event w = (r, w') ->
  hooks w' = hooks w /\ warnings w' = warnings w
  /\ (readline w' = None <-> readline w = None)
  /\ exists l, evaluated w' = (evaluated w ++ l)%list /\ length l <= 4
               /\ forall x, In x l -> contains "(" x = false.
Proof.
  intros H.
  destruct (hook_keeps _ _ _ _ _ _ _ H) as (Hh & Hw & Hr & l & He & Hl & Hp).
  split; [exact Hh|]. split; [exact Hw|]. split; [exact Hr|].
  exists l. auto.
Qed.

(** X11.  An object without [keys()] (a dataset) gets no item
    completions: when the key lookup of lines 114-118 raises
    [AttributeError], be it [obj.keys], [obj[path]] or [obj[path].keys],
    the item completer returns the empty list.  It does so before it
    touches readline, so the delimiters stay as they were and a missing
    readline does not matter. *)
Theorem item_completer_without_keys
  (context : Context) (command base item : string) (obj : PyObj)
  (w w1 : World) :
  item_split command = Ok (base, item) ->
  _retrieve_obj base context w = (Ok obj, w1) ->
  (contains "/" item = false /\ obj_keys obj = Raise AttributeError)
  \/ (contains "/" item = true
      /\ (obj_getitem obj (fst (posixpath.split item)) = Raise AttributeError
          \/ exists sub,
               obj_getitem obj (fst (posixpath.split item)) = Ok sub
               /\ obj_keys sub = Raise AttributeError)) ->
  h5py_item_completer context command w = (Ok [], w1)
  /\ readline w1 = readline w.
Proof.
  intros Hs Hr Hk.
  split.
  - rewrite (h5py_item_completer_eq _ _ _ _ _ Hs), Hr.
    unfold item_candidates.
    destruct Hk as [[Hsl Hk]|[Hsl Hk]].
    + apply split_head_empty in Hsl. rewrite Hsl. simpl. now rewrite Hk.
    + assert (Hp : fst (posixpath.split item) <> "").
      { intros Hp. apply split_head_empty in Hp. congruence. }
      remember (fst (posixpath.split item)) as path eqn:Epath.
      destruct (String.eqb_spec path "") as [He|_]; [contradiction|].
      simpl.
      destruct Hk as [Hk|(sub & Hg & Hk)].
      * now rewrite Hk.
      * rewrite Hg. simpl. now rewrite Hk.
  - now destruct (retrieve_obj_frame _ _ _ _ _ Hr).
Qed.

(** X12.  A hook set by [load_ipython_extension] has readline at hand.
    When loading changed the hooks of the world, readline is there in the
    world it leaves, and it is still there after any call of the hook
    made in that world. *)
Theorem registered_hook_has_readline
  (target : option ShellRef) (w : World) :
  hooks (snd (load_ipython_extension ip target w)) <> hooks w ->
  (exists d, readline (snd (load_ipython_extension ip target w)) = Some d)
  /\ forall self event r w2,
       h5py_completer ip generic self event
         (snd (load_ipython_extension ip target w)) = (r, w2) ->
       exists d, readline w2 = Some d.
Proof.
  intros Hh.
  assert (Hr : exists d,
             readline (snd (load_ipython_extension ip target w)) = Some d).
  { unfold load_ipython_extension, set_hook, warn in *.
    destruct (readline w) as [d|] eqn:Hrl; simpl in *.
    - now exists d.
    - now destruct Hh. }
  split; [exact Hr|].
  intros self event r w2 H.
  destruct (hook_keeps _ _ _ _ _ _ _ H) as (_ & _ & Hn & _).
  destruct Hr as (d & Hd).
  destruct (readline w2) as [d2|]; [now exists d2|].
  destruct Hn as [Hn _]. rewrite Hn in Hd; [discriminate|reflexivity].
Qed.

End CompletionEffects.

(** ** Completion of whole lines *)

Section LineCompletion.
Import PyStr PyStrFacts Re MatchFacts SplitFacts StringEquations
  PriorityFacts RoundTrips PathFacts Lines LineFacts.

Variable ip : IPython.
Variable generic : PyObj -> list string -> result (list string).

(** X13.  Completion inside a group filters the children by the leaf.
    When the typed token is [path/leaf] with [path] not empty and not
    ending in a slash and [leaf] without slash, the base expression
    evaluates to [obj], [obj[path].keys()] gives [names], none of them
    absolute, and readline is there, the item completer returns
    [path/name] for exactly the names that [leaf] is a prefix of, in the
    order of [keys()]. *)
Theorem nested_completion_filters_by_leaf
  (context : Context) (command base path leaf : string) (obj sub : PyObj)
  (names : list string) (w w1 : World) (d : string) :
  item_split command = Ok (base, path ++ String "/" leaf) ->
  path <> "" -> endswith_chr "/" path = false ->
  contains "/" leaf = false ->
  _retrieve_obj base context w = (Ok obj, w1) ->
  obj_getitem obj path = Ok sub ->
  obj_keys sub = Ok names ->
  Forall (fun n => startswith "/" n = false) names ->
  readline w = Some d ->
  h5py_item_completer context command w
  = (Ok (map (fun n => path ++ String "/" n)
           (filter (fun n => slice_eq leaf n) names)),
     with_delims item_delims w1).
Proof.
  intros Hs Hp He Hl Hr Hg Hk Hn Hrl.
  rewrite (h5py_item_completer_eq _ _ _ _ _ Hs), Hr.
  rewrite (split_of_joined path leaf Hp He Hl).
  cbn [fst]. unfold item_candidates.
  destruct (String.eqb_spec path "") as [E|_]; [contradiction|].
  cbn [negb]. rewrite Hg. cbn [rbind]. rewrite Hk. cbn [rbind].
  destruct (retrieve_obj_frame _ _ _ _ _ Hr) as (Hrl1 & _).
  rewrite Hrl1, Hrl.
  now rewrite (filter_joined path leaf names Hp He Hn).
Qed.

(** X14.  The hook completes the keys of an open subscript.  The line is
    an optional assignment prefix, an expression [name ++ tail] where
    [name] is the text before the first bracket, an opening bracket, a
    quote and a token.  When [name] is an h5py object for [_ofind], the
    whole expression evaluates to [obj], and readline is there, the hook
    returns the keys of [obj] that the token is a prefix of, evaluates the
    expression once and sets the delimiters of line 123. *)
Theorem hook_completes_open_subscript
  (self : Context) (event : Event) (assign name tail item : string)
  (q : ascii) (obj : PyObj) (ks : list string) (w : World) (d : string) :
  line event = assign ++ (name ++ tail) ++ String "[" (String q item) ->
  assignment assign ->
  In q quotes ->
  name <> "" -> contains "[" name = false ->
  tail = "" \/ (exists t, tail = String "[" t) ->
  lacks [LF; "="; "("]%char (name ++ tail) = true ->
  (forall x, In x quotes -> x <> q -> contains x (name ++ tail) = false) ->
  lacks [LF; "="; "["; "."; "/"; q]%char item = true ->
  isinstance_h5 (_ofind self name) = true ->
  evaluates self (name ++ tail) obj ->
  obj_keys obj = Ok ks ->
  readline w = Some d ->
  h5py_completer ip generic self event w
  = (Ok (filter (fun k => slice_eq item k) ks),
     with_delims item_delims (logged (name ++ tail) w)).
Proof.
  intros Hl Ha Hq Hne Hnb Ht Hb Hbq Hi Hinst Hev Hk Hrl.
  pose proof (lacks_in _ _ LF Hb ltac:(simpl; tauto)) as HbLF.
  pose proof (lacks_in _ _ "="%char Hb ltac:(simpl; tauto)) as HbE.
  pose proof (lacks_in _ _ "("%char Hb ltac:(simpl; tauto)) as HbP.
  pose proof (lacks_in _ _ LF Hi ltac:(simpl; tauto)) as HiLF.
  pose proof (lacks_in _ _ "="%char Hi ltac:(simpl; tauto)) as HiE.
  pose proof (lacks_in _ _ "["%char Hi ltac:(simpl; tauto)) as HiB.
  pose proof (lacks_in _ _ "."%char Hi ltac:(simpl; tauto)) as HiD.
  pose proof (lacks_in _ _ "/"%char Hi ltac:(simpl; tauto)) as HiS.
  pose proof (lacks_in _ _ q Hi ltac:(simpl; tauto)) as HiQ.
  destruct (quote_not_special q Hq) as (_ & _ & HqE).
  (* the three patterns on this line *)
  assert (Hobj : object_base (line event) = Ok name).
  { rewrite contains_app in HbLF, HbE.
    apply orb_false_elim in HbLF, HbE.
    destruct HbLF as [HnLF HtLF], HbE as [HnE HtE].
    assert (HqiE : contains "=" (String q item) = false).
    { simpl. rewrite HiE.
      destruct (Ascii.eqb_spec q "="); [contradiction|reflexivity]. }
    rewrite Hl.
    destruct Ht as [-> | (t & ->)].
    - rewrite sapp_nil_r.
      pose proof (object_line_search assign name (String q item)
                    Ha Hne HnLF Hnb HnE HqiE) as Hw.
      apply (object_base_of_search _ _ _ Hw); [reflexivity|simpl; lia].
    - rewrite (sapp_assoc name).
      change (String "[" t ++ String "[" (String q item))
        with (String "[" (t ++ String "[" (String q item))).
      assert (Hr : contains "=" (t ++ String "[" (String q item)) = false).
      { rewrite contains_app. simpl in HtE. rewrite HtE.
        change (contains "=" (String "[" (String q item)))
          with (contains "=" (String q item)).
        now rewrite HqiE. }
      pose proof (object_line_search assign name _
                    Ha Hne HnLF Hnb HnE Hr) as Hw.
      apply (object_base_of_search _ _ _ Hw); [reflexivity|simpl; lia]. }
  assert (Hattr : attr_split (line event) = Raise ValueError).
  { rewrite Hl, <- (sapp_assoc assign (name ++ tail)).
    now apply open_subscript_no_attr. }
  assert (Hitem : item_split (line event) = Ok (name ++ tail, item)).
  { rewrite Hl.
    destruct (item_line_search assign (name ++ tail) item q
                Ha Hq HbE HiE HbLF HiLF HiB HiQ Hbq) as (st & Hw & Hc & Ho).
    exact (item_split_of_search _ _ _ _ _ Hw Hc Ho). }
  (* the hook *)
  rewrite (h5py_completer_eq ip generic _ _ _ _ Hobj), Hinst. cbn [negb].
  rewrite (h5py_attr_completer_nomatch ip generic _ _ _ _ Hattr).
  rewrite (h5py_item_completer_eq _ _ _ _ _ Hitem).
  rewrite (retrieve_obj_evaluates _ _ _ w Hev HbP).
  apply split_head_empty in HiS. rewrite HiS.
  unfold item_candidates. cbn [String.eqb negb]. rewrite Hk.
  cbn [logged readline]. now rewrite Hrl.
Qed.

(** X15.  The hook completes the attributes of a subscripted expression.
    The line is an optional assignment prefix, an expression
    [name[y]z] where [name] is the text before the first bracket, a dot
    and a token of word characters.  When [name] is an h5py object for
    [_ofind], the stripped expression evaluates to [obj], its attribute
    listing succeeds and readline is there, the hook returns the
    expression, a dot and the attribute for each listed attribute that
    passes the [omit__names] filter and that the token is a prefix of; it
    evaluates the expression once and sets the delimiters of line 168. *)
Theorem hook_completes_attribute
  (self : Context) (event : Event) (assign name y z attr : string)
  (obj : PyObj) (attrs : list string) (w : World) (d : string) :
  let base := name ++ String "[" (y ++ String "]" z) in
  line event = assign ++ base ++ String "." attr ->
  assignment assign ->
  name <> "" ->
  lacks [LF; "="; "("; "["]%char name = true ->
  lacks [LF; "="; "("]%char y = true ->
  lacks [LF; "="; "("]%char z = true ->
  all_chars isword attr = true ->
  isinstance_h5 (_ofind self name) = true ->
  evaluates self (strip base) obj ->
  attr_listing generic obj = Ok attrs ->
  readline w = Some d ->
  h5py_completer ip generic self event w
  = (Ok (map (fun a => strip base ++ "." ++ a)
           (filter (fun a => slice_eq attr a)
              (omit_filter (lookup_omit__names ip) attrs))),
     with_delims " =" (logged (strip base) w)).
Proof.
  intros base Hl Ha Hne Hn Hy Hz Hw Hinst Hev Hls Hrl.
  pose proof (lacks_in _ _ LF Hn ltac:(simpl; tauto)) as HnLF.
  pose proof (lacks_in _ _ "="%char Hn ltac:(simpl; tauto)) as HnE.
  pose proof (lacks_in _ _ "("%char Hn ltac:(simpl; tauto)) as HnP.
  pose proof (lacks_in _ _ "["%char Hn ltac:(simpl; tauto)) as HnB.
  pose proof (lacks_in _ _ LF Hy ltac:(simpl; tauto)) as HyLF.
  pose proof (lacks_in _ _ "="%char Hy ltac:(simpl; tauto)) as HyE.
  pose proof (lacks_in _ _ "("%char Hy ltac:(simpl; tauto)) as HyP.
  pose proof (lacks_in _ _ LF Hz ltac:(simpl; tauto)) as HzLF.
  pose proof (lacks_in _ _ "="%char Hz ltac:(simpl; tauto)) as HzE.
  pose proof (lacks_in _ _ "("%char Hz ltac:(simpl; tauto)) as HzP.
  destruct isword_special as (_ & HwE & _).
  assert (Hobj : object_base (line event) = Ok name).
  { rewrite Hl. unfold base. rewrite (sapp_assoc name).
    change (String "[" (y ++ String "]" z) ++ String "." attr)
      with (String "[" ((y ++ String "]" z) ++ String "." attr)).
    assert (Hr : contains "=" ((y ++ String "]" z) ++ String "." attr)
                 = false).
    { rewrite !contains_app. simpl. rewrite HyE, HzE. simpl.
      now apply (all_chars_contains isword). }
    pose proof (object_line_search assign name _ Ha Hne HnLF HnB HnE Hr)
      as Hs.
    apply (object_base_of_search _ _ _ Hs); [reflexivity|simpl; lia]. }
  assert (Hattr : attr_split (line event) = Ok (base, attr)).
  { rewrite Hl.
    destruct (attr_line_search assign name y z attr
                Ha Hne HnLF HyLF HzLF HnE HyE HzE Hw) as (st & Hs & Hc & Ho).
    exact (attr_split_of_search _ _ _ _ Hs Hc Ho). }
  assert (HbP : contains "(" (strip base) = false).
  { rewrite contains_strip by reflexivity. unfold base.
    rewrite contains_app. simpl. rewrite contains_app. simpl.
    now rewrite HnP, HyP, HzP. }
  rewrite (h5py_completer_eq ip generic _ _ _ _ Hobj), Hinst. cbn [negb].
  rewrite (h5py_attr_completer_eq ip generic _ _ _ _ _ Hattr).
  rewrite (retrieve_obj_evaluates _ _ _ w Hev HbP), Hls.
  cbn [logged readline]. now rewrite Hrl.
Qed.

End LineCompletion.

(** ** The setting [omit__names] *)

Section OmitLevels.
Import PyStr PyStrFacts MatchFacts OmitFacts Lines.

Variable generic : PyObj -> list string -> result (list string).

(** X16.  A higher level of [omit__names] only removes candidates.  Two
    sessions that differ in the setting alone, the second at a level at
    least that of the first (levels: 1, 2, and 0 for every other value):
    when the attribute completer returns a list in the first, it returns
    in the second a selection of that list, in the same order, and leaves
    the same world. *)
Theorem omit__names_only_removes
  (ip1 ip2 : IPython) (context : Context) (command : string)
  (w w1 : World) (l1 : list string) :
  omit_level (lookup_omit__names ip1) <= omit_level (lookup_omit__names ip2) ->
  h5py_attr_completer ip1 generic context command w = (Ok l1, w1) ->
  exists keep : string -> bool,
    h5py_attr_completer ip2 generic context command w
    = (Ok (filter keep l1), w1).
Proof.
  intros Hlv H.
  destruct (attr_split command) as [[base attr]|e] eqn:Hs;
    [|rewrite (h5py_attr_completer_nomatch _ _ _ _ _ _ Hs) in H;
      discriminate].
  rewrite (h5py_attr_completer_eq _ _ _ _ _ _ _ Hs) in H.
  rewrite (h5py_attr_completer_eq _ _ _ _ _ _ _ Hs).
  destruct (_retrieve_obj (strip base) context w) as [[obj|e] w'].
  - destruct (attr_listing generic obj) as [attrs|e]; [|discriminate].
    destruct (readline w') as [d|]; [|discriminate].
    inversion H; subst w1. clear H H1.
    set (n := omit_level (lookup_omit__names ip2)) in *.
    set (m := omit_level (lookup_omit__names ip1)) in *.
    exists (fun c => listed_at n (drop (String.length (strip base ++ ".")) c)).
    f_equal. f_equal.
    change (fun a => strip base ++ "." ++ a)
      with (fun a => strip base ++ String "." a).
    assert (E : forall l : list string,
               map (fun a => strip base ++ String "." a) l
               = map (fun a => (strip base ++ ".") ++ a) l).
    { intros l. apply map_ext. intros a. now rewrite sapp_assoc. }
    rewrite !E, <- filter_prefixed. f_equal.
    rewrite !omit_filter_level. fold n m.
    rewrite (filter_level_mono m n attrs Hlv).
    apply filter_comm.
  - inversion H; subst. now exists (fun _ => true).
Qed.

End OmitLevels.

(** ** The theorems above on the session of the docstring *)

Module LineRuns.
Import PyStr Lines Session.

Lemma item_split_anatomy_witness :
  exists pre q post,
    "f['ite" = pre ++ "f" ++ String "[" (String q ("ite" ++ post))
    /\ In q ["'"; "|"; DQUOTE]%char
    /\ contains q "ite" = false
    /\ contains LF "f" = false /\ contains LF "ite" = false
    /\ (post = "" \/ post = str1 LF).
Proof.
  apply (item_split_anatomy "f['ite" "f" "ite"). vm_compute. reflexivity.
Defined.

Lemma attr_split_anatomy_witness :
  exists pre post x y z,
    "f['item1'].a" = pre ++ "f['item1']" ++ String "." ("a" ++ post)
    /\ "f['item1']" = x ++ String "[" (y ++ String "]" z)
    /\ x <> ""
    /\ contains LF "f['item1']" = false
    /\ all_chars Re.isword "a" = true
    /\ contains "." "a" = false
    /\ (post = "" \/ post = str1 LF).
Proof.
  apply (attr_split_anatomy "f['item1'].a" "f['item1']" "a").
  vm_compute. reflexivity.
Defined.

Lemma object_base_anatomy_witness :
  exists pre post,
    "f['it" = pre ++ "f" ++ String "[" post
    /\ "f" <> "" /\ contains LF "f" = false.
Proof.
  apply (object_base_anatomy "f['it" "f"). vm_compute. reflexivity.
Defined.

Lemma item_split_round_trip_witness :
  item_split ("a =" ++ " f" ++ String "[" (String "'" "ite"))
  = Ok (" f", "ite").
Proof.
  apply (item_split_round_trip "a =" " f" "ite" "'"); try reflexivity.
  - right. exists "a ". split; reflexivity.
  - simpl. tauto.
  - intros c [<-|[<-|[<-|[]]]] Hc; reflexivity.
Defined.

Lemma attr_split_round_trip_witness :
  attr_split ("b =" ++ (" f" ++ String "[" ("'item1'" ++ String "]" ""))
                    ++ String "." "at")
  = Ok (" f" ++ String "[" ("'item1'" ++ String "]" ""), "at").
Proof.
  apply (attr_split_round_trip "b =" " f" "'item1'" "" "at");
    try reflexivity.
  - right. exists "b ". split; reflexivity.
  - discriminate.
Defined.

Lemma object_base_round_trip_witness :
  object_base ("a=" ++ "f" ++ String "[" "'item1']['it") = Ok "f".
Proof.
  apply (object_base_round_trip "a=" "f" "'item1']['it"); try reflexivity.
  - right. exists "a". split; reflexivity.
  - discriminate.
Defined.

Lemma no_bracket_line_witness :
  h5py_completer (ip 0) no_generic ctx (mkEvent "import h5py") w0
  = (Raise IndexError, w0)
  /\ h5py_item_completer ctx "import h5py" w0 = (Raise ValueError, w0)
  /\ h5py_attr_completer (ip 0) no_generic ctx "import h5py" w0
     = (Raise ValueError, w0).
Proof.
  apply (no_bracket_line (ip 0) no_generic ctx (mkEvent "import h5py") w0).
  reflexivity.
Defined.

Lemma plain_subscript_no_completions_witness :
  h5py_completer (ip 0) no_generic ctx (mkEvent "f[0") w0 = (Ok [], w0).
Proof.
  apply (plain_subscript_no_completions (ip 0) no_generic ctx
           (mkEvent "f[0") "f" w0); try reflexivity.
  intros q [<-|[<-|[<-|[]]]]; reflexivity.
Defined.

Lemma retrieve_obj_evaluations_witness :
  readline (after_eval "f") = readline w0
  /\ hooks (after_eval "f") = hooks w0
  /\ warnings (after_eval "f") = warnings w0
  /\ exists n,
       n <= 2
       /\ evaluated (after_eval "f") = (evaluated w0 ++ repeat "f" n)%list
       /\ (contains "(" "f" = true -> n = 0)
       /\ (n = 2 -> exists ns0, shell_user_ns ctx = Some ns0
                                /\ ns0 "f" = Raise AttributeError).
Proof.
  apply (retrieve_obj_evaluations "f" ctx w0 (after_eval "f") (Ok f)).
  reflexivity.
Defined.

Lemma hook_effects_witness :
  hooks (with_delims item_delims (after_eval "f")) = hooks w0
  /\ warnings (with_delims item_delims (after_eval "f")) = warnings w0
  /\ (readline (with_delims item_delims (after_eval "f")) = None
      <-> readline w0 = None)
  /\ exists l,
       evaluated (with_delims item_delims (after_eval "f"))
       = (evaluated w0 ++ l)%list
       /\ length l <= 4
       /\ forall e, In e l -> contains "(" e = false.
Proof.
  apply (hook_effects (ip 0) no_generic ctx (mkEvent "f['ite") w0
           (with_delims item_delims (after_eval "f"))
           (Ok ["item1"; "item3"])).
  vm_compute. reflexivity.
Defined.

Lemma item_completer_without_keys_witness :
  h5py_item_completer ctx "f['data']['x" w0
  = (Ok [], after_eval "f['data']")
  /\ readline (after_eval "f['data']") = readline w0.
Proof.
  apply (item_completer_without_keys ctx "f['data']['x" "f['data']" "x"
           dset w0 (after_eval "f['data']")).
  - vm_compute. reflexivity.
  - vm_compute. reflexivity.
  - left. split; reflexivity.
Defined.

Lemma registered_hook_has_readline_witness :
  (exists d,
      readline (snd (load_ipython_extension (ip 0) None w0)) = Some d)
  /\ forall self event r w2,
       h5py_completer (ip 0) no_generic self event
         (snd (load_ipython_extension (ip 0) None w0)) = (r, w2) ->
       exists d, readline w2 = Some d.
Proof.
  apply (registered_hook_has_readline (ip 0) no_generic None w0).
  vm_compute. discriminate.
Defined.

Lemma nested_completion_filters_by_leaf_witness :
  h5py_item_completer ctx "f['item1/it" w0
  = (Ok (map (fun n => "item1" ++ String "/" n)
           (filter (fun n => slice_eq "it" n) ["item2"; "other"])),
     with_delims item_delims (after_eval "f")).
Proof.
  apply (nested_completion_filters_by_leaf ctx "f['item1/it" "f" "item1"
           "it" f item1 ["item2"; "other"] w0 (after_eval "f") "");
    try reflexivity.
  - discriminate.
  - repeat constructor.
Defined.

Lemma hook_completes_open_subscript_witness :
  h5py_completer (ip 0) no_generic ctx (mkEvent "a=f['item1']['it") w0
  = (Ok (filter (fun k => slice_eq "it" k) ["item2"; "other"]),
     with_delims item_delims (logged ("f" ++ "['item1']") w0)).
Proof.
  apply (hook_completes_open_subscript (ip 0) no_generic ctx
           (mkEvent "a=f['item1']['it") "a=" "f" "['item1']" "it" "'"
           item1 ["item2"; "other"] w0 ""); try reflexivity.
  - right. exists "a". split; reflexivity.
  - simpl. tauto.
  - discriminate.
  - right. exists "'item1']". reflexivity.
  - intros c [<-|[<-|[<-|[]]]] Hc; try reflexivity. now destruct Hc.
  - left. exists ns. split; reflexivity.
Defined.

Lemma hook_completes_attribute_witness :
  h5py_completer (ip 0) no_generic ctx (mkEvent "a=f['item1'].at") w0
  = (Ok (map (fun a => strip ("f" ++ String "[" ("'item1'" ++ String "]" ""))
                       ++ "." ++ a)
           (filter (fun a => slice_eq "at" a)
              (omit_filter (lookup_omit__names (ip 0)) (obj_dir item1)))),
     with_delims " ="
       (logged (strip ("f" ++ String "[" ("'item1'" ++ String "]" ""))) w0)).
Proof.
  apply (hook_completes_attribute (ip 0) no_generic ctx
           (mkEvent "a=f['item1'].at") "a=" "f" "'item1'" "" "at"
           item1 (obj_dir item1) w0 ""); try reflexivity.
  - right. exists "a". split; reflexivity.
  - discriminate.
  - left. exists ns. split; reflexivity.
Defined.

Lemma omit__names_only_removes_witness :
  exists keep : string -> bool,
    h5py_attr_completer (ip 2) no_generic ctx "f['item1']._" w0
    = (Ok (filter keep ["f['item1']._id"; "f['item1'].__class__"]),
       with_delims " =" (after_eval "f['item1']")).
Proof.
  apply (omit__names_only_removes no_generic (ip 0) (ip 2) ctx
           "f['item1']._" w0).
  - vm_compute. lia.
  - vm_compute. reflexivity.
Defined.

End LineRuns.
